(** * FastStream: the FastAPI lifespan bridge and the command line

    A shallow embedding of
      - [faststream/broker/fastapi/router.py]: [_BackgroundMiddleware],
        [StreamRouter] (hook registration, [_wrap_lifespan], the AsyncAPI
        documentation endpoints);
      - [faststream/cli/main.py]: the [run] and [publish] commands.

    Calls into the world outside these two files (the broker, the host
    application, user hooks, process supervisors, the terminal) are recorded
    as events of a trace, in program order; what such a call returns or
    raises is an input of the model. *)

From Stdlib Require Import ZArith Ascii String.
From stdpp Require Import base strings gmap list.

Local Open Scope string_scope.
Local Open Scope list_scope.

(** ** Python values and exceptions *)

(** The values that the dictionaries of these files hold. [VBroker] is the
    handle of a broker object. *)
Inductive value :=
| VNone
| VBool (b : bool)
| VInt (z : Z)
| VStr (s : string)
| VBroker (handle : nat).

Abbreviation AnyDict := (gmap string value).

(** The exception classes the two files raise or catch by name;
    [UserError] stands for any other subclass of [Exception]. *)
Inductive exn_class :=
| SetupError
| ValueError
| AssertionError
| RuntimeError
| BadParameter
| ImportError
| ValidationError
| UserError.

(** An instance of [Exception]; [exn_msg] is what [str(e)] gives. *)
Record exn := Exn { exn_cls : exn_class; exn_msg : string }.

(** What a call gives back: a value, or a raised exception. *)
Inductive result (A : Type) :=
| Return (a : A)
| Raise (e : exn).
Arguments Return {A} a.
Arguments Raise {A} e.

Definition raised {A} (r : result A) : option exn :=
  match r with
  | Return _ => None
  | Raise e => Some e
  end.

(** The characters [chr(34)] and [chr(10)] as strings. *)
Definition dquote : string := String "034"%char EmptyString.
Definition newline : string := String "010"%char EmptyString.

(** [dict.update]: the keys of [other] overwrite those of [d]. *)
Definition update (d other : AnyDict) : AnyDict := other ∪ d.

(** Truth value of an [Optional[Mapping]]: [None] and the empty mapping are
    false. *)
Definition truthy (m : option AnyDict) : bool :=
  match m with
  | None => false
  | Some d => negb (bool_decide (d = ∅))
  end.

(** * router.py *)
Module Router.

(** The host application object, as far as the bridge reads it. *)
Record FastAPI := {
  app_title : string;
  app_description : string;
  app_version : string;
  app_contact : option AnyDict;
  app_license_info : option AnyDict;
}.

(** A registered hook, after [to_async]: calling it with the application
    returns an optional mapping or raises. The name identifies the hook in
    traces. *)
Record hook := {
  hook_name : string;
  hook_call : FastAPI -> result (option AnyDict);
}.

(** The [lifespan] the host passed to the router ([_DefaultLifespan] when it
    passed none), an asynchronous context manager: [lc_enter] is
    [__aenter__] (the value bound by [as]), [lc_exit] is [__aexit__], which
    receives the exception in flight and returns whether to suppress it. *)
Record host_lifespan := {
  lc_enter : FastAPI -> result (option AnyDict);
  lc_exit : option exn -> result bool;
}.

(** What the broker does when the bridge calls it during one scope. *)
Record broker_calls := {
  start_result : result unit;
  stop_result : result unit;
}.

Inductive event :=
| EvSetApplication
| EvIncludeRouter
| EvLifespanEnter
| EvLifespanExit (exc : option exn)
| EvBrokerStart
| EvBrokerStop
| EvWarn (msg : string)
| EvAfterStartup (name : string)
| EvOnShutdown (name : string).

Definition is_start (e : event) : bool :=
  match e with EvBrokerStart => true | _ => false end.
Definition is_stop (e : event) : bool :=
  match e with EvBrokerStop => true | _ => false end.
Definition is_warn (e : event) : bool :=
  match e with EvWarn _ => true | _ => false end.
Definition is_after_startup (e : event) : bool :=
  match e with EvAfterStartup _ => true | _ => false end.

(** Number of events of a trace that satisfy [p]. *)
Definition count (p : event -> bool) (t : list event) : nat :=
  length (List.filter p t).

Section WithSchema.

(** The AsyncAPI schema object and its renderers live in
    [faststream.asyncapi], outside these files. *)
Context {Schema : Type}.

(** The router that serves the documentation, built by [_asyncapi_router]:
    the three paths it registers. *)
Record APIRouter := {
  html_path : string;
  json_path : string;
  yaml_path : string;
}.

Record StreamRouter := {
  broker : nat;
  docs_router : option APIRouter;
  _after_startup_hooks : list hook;
  _on_shutdown_hooks : list hook;
  schema : option Schema;
  title : string;
  description : string;
  version : string;
  license : option AnyDict;
  contact : option AnyDict;
  setup_state : bool;
  include_in_schema : bool;
  _lifespan_started : bool;
}.

Variable get_app_schema : StreamRouter -> result Schema.

(** ** Field assignments *)

Definition set_metadata (self : StreamRouter) (app : FastAPI) : StreamRouter :=
  {| broker := broker self;
     docs_router := docs_router self;
     _after_startup_hooks := _after_startup_hooks self;
     _on_shutdown_hooks := _on_shutdown_hooks self;
     schema := schema self;
     title := app_title app;
     description := app_description app;
     version := app_version app;
     license := app_license_info app;
     contact := app_contact app;
     setup_state := setup_state self;
     include_in_schema := include_in_schema self;
     _lifespan_started := _lifespan_started self |}.

Definition set_schema (self : StreamRouter) (s : option Schema) : StreamRouter :=
  {| broker := broker self;
     docs_router := docs_router self;
     _after_startup_hooks := _after_startup_hooks self;
     _on_shutdown_hooks := _on_shutdown_hooks self;
     schema := s;
     title := title self;
     description := description self;
     version := version self;
     license := license self;
     contact := contact self;
     setup_state := setup_state self;
     include_in_schema := include_in_schema self;
     _lifespan_started := _lifespan_started self |}.

Definition set_lifespan_started (self : StreamRouter) (b : bool) : StreamRouter :=
  {| broker := broker self;
     docs_router := docs_router self;
     _after_startup_hooks := _after_startup_hooks self;
     _on_shutdown_hooks := _on_shutdown_hooks self;
     schema := schema self;
     title := title self;
     description := description self;
     version := version self;
     license := license self;
     contact := contact self;
     setup_state := setup_state self;
     include_in_schema := include_in_schema self;
     _lifespan_started := b |}.

(** [self._after_startup_hooks.append(to_async(func))] *)
Definition after_startup (self : StreamRouter) (func : hook) : StreamRouter :=
  {| broker := broker self;
     docs_router := docs_router self;
     _after_startup_hooks := _after_startup_hooks self ++ [func];
     _on_shutdown_hooks := _on_shutdown_hooks self;
     schema := schema self;
     title := title self;
     description := description self;
     version := version self;
     license := license self;
     contact := contact self;
     setup_state := setup_state self;
     include_in_schema := include_in_schema self;
     _lifespan_started := _lifespan_started self |}.

(** [self._on_shutdown_hooks.append(to_async(func))] *)
Definition on_broker_shutdown (self : StreamRouter) (func : hook) : StreamRouter :=
  {| broker := broker self;
     docs_router := docs_router self;
     _after_startup_hooks := _after_startup_hooks self;
     _on_shutdown_hooks := _on_shutdown_hooks self ++ [func];
     schema := schema self;
     title := title self;
     description := description self;
     version := version self;
     license := license self;
     contact := contact self;
     setup_state := setup_state self;
     include_in_schema := include_in_schema self;
     _lifespan_started := _lifespan_started self |}.

(** ** Computations

    A computation runs on the router object, which it may assign to, records
    the calls it makes to the outside, and returns or raises. *)
Definition M (A : Type) : Type :=
  StreamRouter -> StreamRouter * list event * result A.

Definition ret {A} (a : A) : M A := fun self => (self, [], Return a).

Definition bind {A B} (f : A -> M B) (m : M A) : M B := fun self =>
  match m self with
  | (self1, t1, Return a) =>
      match f a self1 with
      | (self2, t2, r) => (self2, t1 ++ t2, r)
      end
  | (self1, t1, Raise e) => (self1, t1, Raise e)
  end.

#[local] Instance M_ret : MRet M := @ret.
#[local] Instance M_bind : MBind M := @bind.

Definition emit (e : event) : M unit := fun self => (self, [e], Return tt).
Definition throw {A} (e : exn) : M A := fun self => (self, [], Raise e).
Definition lift {A} (r : result A) : M A := fun self => (self, [], r).
Definition get : M StreamRouter := fun self => (self, [], Return self).
Definition put (self' : StreamRouter) : M unit := fun _ => (self', [], Return tt).

(** [try: m finally: fin]: [fin] always runs; an exception it raises
    replaces the outcome of [m]. *)
Definition try_finally {A} (m : M A) (fin : M unit) : M A := fun self =>
  match m self with
  | (self1, t1, r1) =>
      match fin self1 with
      | (self2, t2, Return _) => (self2, t1 ++ t2, r1)
      | (self2, t2, Raise e) => (self2, t1 ++ t2, Raise e)
      end
  end.

Definition state_of {A} (x : StreamRouter * list event * result A) : StreamRouter :=
  x.1.1.
Definition trace_of {A} (x : StreamRouter * list event * result A) : list event :=
  x.1.2.
Definition result_of {A} (x : StreamRouter * list event * result A) : result A :=
  x.2.

(** ** [_wrap_lifespan]: [start_broker_lifespan]

    [start_broker_lifespan] is a generator under [@asynccontextmanager]. It
    is embedded as its two halves: [startup], from the first line to the
    [yield], and [shutdown], from the [yield] to the end. *)

Definition lifespan_warning : string :=
  "Specifying 'lifespan_context' manually is no longer necessary with FastAPI >= 0.112.2.".

(** [await h(app)] *)
Definition call_hook (ev : string -> event) (h : hook) (app : FastAPI)
  : M (option AnyDict) :=
  emit (ev (hook_name h));; lift (hook_call h app).

(** Lines 292-303: [if self.docs_router: ...] *)
Definition capture_docs (app : FastAPI) : M unit :=
  self ← get;
  match docs_router self with
  | Some _ =>
      put (set_metadata self app);;
      self ← get;
      s ← lift (get_app_schema self);
      self ← get;
      put (set_schema self (Some s));;
      emit EvIncludeRouter
  | None => ret tt
  end.

(** Lines 306-311: the context dictionary, with the broker put in. *)
Definition initial_context (self : StreamRouter) (maybe_context : option AnyDict)
  : AnyDict :=
  let context := match maybe_context with
                 | None => ∅
                 | Some m => m
                 end in
  update context {["broker" := VBroker (broker self)]}.

(** Lines 313-320 *)
Definition start_or_warn (env : broker_calls) : M unit :=
  self ← get;
  if negb (_lifespan_started self) then
    emit EvBrokerStart;;
    lift (start_result env);;
    self ← get;
    put (set_lifespan_started self true)
  else
    emit (EvWarn lifespan_warning).

(** Lines 324-325: [if h_context: context.update(h_context)] *)
Definition merge_hook_context (context : AnyDict) (h_context : option AnyDict)
  : AnyDict :=
  if truthy h_context then
    match h_context with
    | Some d => update context d
    | None => context
    end
  else context.

(** Lines 322-325 *)
Fixpoint run_after_startup (hs : list hook) (app : FastAPI) (context : AnyDict)
  : M AnyDict :=
  match hs with
  | [] => ret context
  | h :: hs' =>
      h_context ← call_hook EvAfterStartup h app;
      run_after_startup hs' app (merge_hook_context context h_context)
  end.

(** Lines 306-325, the block of the [async with] up to the [yield]; the
    result is the local [context]. *)
Definition before_yield (env : broker_calls) (app : FastAPI)
    (maybe_context : option AnyDict) : M AnyDict :=
  self ← get;
  let context := initial_context self maybe_context in
  start_or_warn env;;
  self ← get;
  run_after_startup (_after_startup_hooks self) app context.

(** Lines 328-332: what the [yield] hands to the host. *)
Definition yielded (self : StreamRouter) (context : AnyDict) : option AnyDict :=
  if setup_state self then Some context else None.

(** An exception that leaves the block of [async with lifespan_context(app)]
    before the [yield] goes through the host lifespan's [__aexit__]; if that
    suppresses it the generator ends without a [yield], which
    [asynccontextmanager] reports. *)
Definition exit_on_error {A} (lc : host_lifespan) (m : M A) : M A := fun self =>
  match m self with
  | (self1, t1, Return a) => (self1, t1, Return a)
  | (self1, t1, Raise e) =>
      (self1, t1 ++ [EvLifespanExit (Some e)],
       match lc_exit lc (Some e) with
       | Raise e' => Raise e'
       | Return true => Raise (Exn RuntimeError "generator didn't yield")
       | Return false => Raise e
       end)
  end.

(** Lines 290-325 *)
Definition startup (lc : host_lifespan) (env : broker_calls) (app : FastAPI)
  : M AnyDict :=
  emit EvSetApplication;;
  capture_docs app;;
  emit EvLifespanEnter;;
  maybe_context ← lift (lc_enter lc app);
  exit_on_error lc (before_yield env app maybe_context).

(** Lines 334-335 *)
Fixpoint run_on_shutdown (hs : list hook) (app : FastAPI) : M unit :=
  match hs with
  | [] => ret tt
  | h :: hs' => call_hook EvOnShutdown h app;; run_on_shutdown hs' app
  end.

(** Lines 327-338: the [try] statement, resumed at the [yield]. [thrown] is
    the exception the host's block raised, thrown into the generator at the
    [yield], if any. *)
Definition after_yield (env : broker_calls) (app : FastAPI) (thrown : option exn)
  : M unit :=
  try_finally
    (match thrown with
     | Some e => throw e
     | None => self ← get; run_on_shutdown (_on_shutdown_hooks self) app
     end)
    (emit EvBrokerStop;; lift (stop_result env)).

(** Lines 327-338 and the end of the [async with] of line 305. *)
Definition shutdown (lc : host_lifespan) (env : broker_calls) (app : FastAPI)
    (thrown : option exn) : M unit := fun self =>
  match after_yield env app thrown self with
  | (self1, t1, r) =>
      (self1, t1 ++ [EvLifespanExit (raised r)],
       match lc_exit lc (raised r) with
       | Raise e' => Raise e'
       | Return suppress =>
           match r with
           | Raise e => if suppress then Return tt else Raise e
           | Return _ => Return tt
           end
       end)
  end.

(** The host's block, run with what the [yield] hands over, then the second
    half of the generator. *)
Definition serve_then_shutdown (lc : host_lifespan) (env : broker_calls)
    (app : FastAPI) (body : option AnyDict -> M unit) (context : AnyDict)
  : M unit := fun self =>
  match body (yielded self context) self with
  | (self1, t1, r1) =>
      match shutdown lc env app (raised r1) self1 with
      | (self2, t2, r2) => (self2, t1 ++ t2, r2)
      end
  end.

(** [async with start_broker_lifespan(app) as state: body(state)] *)
Definition lifespan_scope (lc : host_lifespan) (env : broker_calls) (app : FastAPI)
    (body : option AnyDict -> M unit) : M unit :=
  context ← startup lc env app;
  serve_then_shutdown lc env app body context.

(** ** [_asyncapi_router] and [__init__] *)

(** Truth value of an [Optional[str]]. *)
Definition nonempty (s : option string) : bool :=
  match s with
  | None | Some EmptyString => false
  | Some _ => true
  end.

Definition _asyncapi_router (include : bool) (schema_url : option string)
  : option APIRouter :=
  if negb include || negb (nonempty schema_url) then None
  else
    match schema_url with
    | Some url =>
        Some {| html_path := url;
                json_path := url +:+ ".json";
                yaml_path := url +:+ ".yaml" |}
    | None => None
    end.

(** The fields [__init__] sets, for a broker with the given handle. *)
Definition init (handle : nat) (setup include : bool) (schema_url : option string)
  : StreamRouter :=
  {| broker := handle;
     docs_router := if include then _asyncapi_router include schema_url else None;
     _after_startup_hooks := [];
     _on_shutdown_hooks := [];
     schema := None;
     title := EmptyString;
     description := EmptyString;
     version := EmptyString;
     license := None;
     contact := None;
     setup_state := setup;
     include_in_schema := include;
     _lifespan_started := false |}.

(** The display switches of the rendered page. *)
Record display := {
  sidebar : bool;
  info : bool;
  servers : bool;
  operations : bool;
  messages : bool;
  schemas : bool;
  errors : bool;
  expandMessageExamples : bool;
}.

(** [json.dumps(schema.to_jsonable(), indent=2)], [schema.to_yaml()] and
    [get_asyncapi_html(schema, ..., title=schema.info.title)]. *)
Variable dumps_jsonable : Schema -> string.
Variable to_yaml : Schema -> string.
Variable get_asyncapi_html : Schema -> display -> string.

Record Response := {
  content : string;
  content_type : string;
}.

Definition lifespan_not_run : exn :=
  Exn AssertionError "You need to run application lifespan at first".

(** [assert self.schema, "..."]: a schema object is true, [None] is false. *)
Definition assert_schema (self : StreamRouter) : result Schema :=
  match schema self with
  | Some s => Return s
  | None => Raise lifespan_not_run
  end.

Definition download_app_json_schema (self : StreamRouter) : result Response :=
  match assert_schema self with
  | Return s =>
      Return {| content := dumps_jsonable s;
                content_type := "application/octet-stream" |}
  | Raise e => Raise e
  end.

Definition download_app_yaml_schema (self : StreamRouter) : result Response :=
  match assert_schema self with
  | Return s =>
      Return {| content := to_yaml s;
                content_type := "application/octet-stream" |}
  | Raise e => Raise e
  end.

Definition serve_asyncapi_schema (self : StreamRouter) (d : display)
  : result Response :=
  match assert_schema self with
  | Return s =>
      Return {| content := get_asyncapi_html s d;
                content_type := "text/html" |}
  | Raise e => Raise e
  end.

End WithSchema.

End Router.

(** * router.py: [_BackgroundMiddleware] *)
Module Middleware.

(** The [BackgroundTasks] object of a message; calling it runs the tasks and
    returns, or raises. *)
Record BackgroundTasks := {
  tasks_id : nat;
  tasks_call : result unit;
}.

(** A message, as far as the middleware looks: [background] is [None] when
    the attribute is missing or holds [None]. *)
Record StreamMessage := {
  background : option BackgroundTasks;
}.

Inductive event :=
| EvBackground (id : nat)
| EvAfterProcessed (exc : option exn).

Definition is_background (e : event) : bool :=
  match e with EvBackground _ => true | _ => false end.

(** [getattr(context.get_local("message"), "background", None)] *)
Definition getattr_background (message : option StreamMessage)
  : option BackgroundTasks :=
  match message with
  | Some m => background m
  | None => None
  end.

Section WithBase.

(** [BaseMiddleware.after_processed], of [faststream.broker.middlewares]. *)
Variable after_processed : option exn -> result (option bool).

(** [exc] stands for the triple [exc_type, exc_val, exc_tb]; [message] is
    the message of the ambient context. *)
Definition __aexit__ (exc : option exn) (message : option StreamMessage)
  : list event * result (option bool) :=
  match exc, getattr_background message with
  | None, Some bg =>
      match tasks_call bg with
      | Return _ =>
          ([EvBackground (tasks_id bg); EvAfterProcessed exc], after_processed exc)
      | Raise e => ([EvBackground (tasks_id bg)], Raise e)
      end
  | _, _ => ([EvAfterProcessed exc], after_processed exc)
  end.

End WithBase.

End Middleware.

(** * main.py *)
Module Cli.

(** A command returns, lets an exception escape, or leaves through
    [sys.exit], whose [SystemExit] no [except Exception] catches. *)
Inductive outcome (A : Type) :=
| Done (a : A)
| Failed (e : exn)
| Exit (code : Z).
Arguments Done {A} a.
Arguments Failed {A} e.
Arguments Exit {A} code.

(** What [typer.echo] is given: a formatted line, or an object. *)
Inductive printed :=
| PStr (line : string)
| PVal (v : value).

Inductive event :=
| EvEcho (p : printed)
| EvWarn (msg : string)
| EvSysPathInsert (dir : string)
| EvImport (app : string) (is_factory : bool)
| EvWatchReloader (reload_dirs : list string) (extra_extensions : list string)
| EvMultiprocess (workers : Z) (app_level : Z)
| EvASGIMultiprocess (workers : Z)
| EvSetLogLevel (level : Z)
| EvSetLogConfig (path : string)
| EvUvloopInstall
| EvAnyioRun (app_level : Z) (extra_options : AnyDict)
| EvShowError (fields : list string)
| EvBrokerEnter
| EvBrokerPublish (extra : AnyDict)
| EvBrokerExit (exc : option exn).

(** The events that start the application or a supervisor of worker
    processes. *)
Definition is_spawn (e : event) : bool :=
  match e with
  | EvWatchReloader _ _ | EvMultiprocess _ _ | EvASGIMultiprocess _
  | EvAnyioRun _ _ => true
  | _ => false
  end.
Definition is_enter (e : event) : bool :=
  match e with EvBrokerEnter => true | _ => false end.
Definition is_publish (e : event) : bool :=
  match e with EvBrokerPublish _ => true | _ => false end.
Definition is_exit (e : event) : bool :=
  match e with EvBrokerExit _ => true | _ => false end.

Definition count (p : event -> bool) (t : list event) : nat :=
  length (List.filter p t).

(** The lines printed, in order. *)
Fixpoint echoed (t : list event) : list printed :=
  match t with
  | [] => []
  | EvEcho p :: t' => p :: echoed t'
  | _ :: t' => echoed t'
  end.

Definition C (A : Type) : Type := (list event * outcome A)%type.

Definition ret {A} (a : A) : C A := ([], Done a).
Definition bind {A B} (f : A -> C B) (m : C A) : C B :=
  match m with
  | (t1, Done a) => match f a with (t2, o) => (t1 ++ t2, o) end
  | (t1, Failed e) => (t1, Failed e)
  | (t1, Exit code) => (t1, Exit code)
  end.

#[local] Instance C_ret : MRet C := @ret.
#[local] Instance C_bind : MBind C := @bind.

Definition emit (e : event) : C unit := ([e], Done tt).
Definition throw {A} (e : exn) : C A := ([], Failed e).
Definition sys_exit {A} (code : Z) : C A := ([], Exit code).
Definition lift {A} (r : result A) : C A :=
  match r with
  | Return a => ([], Done a)
  | Raise e => ([], Failed e)
  end.
Definition echo (p : printed) : C unit := emit (EvEcho p).

(** [try: m except Exception as e: handler(e)] *)
Definition try_except {A} (m : C A) (handler : exn -> C A) : C A :=
  match m with
  | (t1, Failed e) => match handler e with (t2, o) => (t1 ++ t2, o) end
  | other => other
  end.

(** The status of the process when the command ends: [sys.exit(n)] gives
    [n]; click reports a [BadParameter] as a usage error, status 2; any
    other exception that escapes ends the interpreter with status 1. *)
Definition exit_status {A} (o : outcome A) : Z :=
  match o with
  | Done _ => 0
  | Exit code => code
  | Failed e =>
      match exn_cls e with
      | BadParameter => 2
      | _ => 1
      end
  end.

(** The class of the imported object. [FastStream] and [AsgiFastStream] are
    subclasses of [Application]. *)
Inductive app_type :=
| FastStream
| AsgiFastStream
| OtherApplication
| NotApplication.

Definition is_Application (k : app_type) : bool :=
  match k with
  | NotApplication => false
  | _ => true
  end.

(** What [anyio.run(app_obj.run, ...)] does. *)
Inductive run_outcome :=
| RunReturns
| RunValidationError (fields : list string)
| RunRaises (e : exn).

(** A broker, as the publish command uses it: [__aenter__] connects,
    [publish] sends (and in RPC mode waits for the reply, which it returns),
    [__aexit__] closes the connection and returns nothing. *)
Record BrokerUsecase := {
  enter_result : result unit;
  publish_result : AnyDict -> result value;
  exit_result : option exn -> result unit;
}.

(** The object [import_from_string] resolves. *)
Record app_object := {
  app_kind : app_type;
  app_repr : string;
  app_type_repr : string;
  app_run : Z -> AnyDict -> run_outcome;
  app_broker : option BrokerUsecase;
}.

(** [logging.DEBUG], [logging.INFO] *)
Definition DEBUG : Z := 10.
Definition INFO : Z := 20.

Section WithEnvironment.

(** Helpers of [faststream.cli.utils] and [faststream.exceptions], and what
    is installed on the machine. *)
Variable LogLevels : Type.
Variable parse_cli_args : string -> list string -> string * AnyDict.
Variable get_log_level : LogLevels -> Z.
Variable import_from_string : string -> bool -> result (string * app_object).
Variable INSTALL_WATCHFILES : string.
Variable watchfiles_installed : bool.
Variable uvloop_usable : bool.
Variable watch_reloader_run : result unit.
Variable multiprocess_run : result unit.
Variable asgi_multiprocess_run : result unit.

Definition import_app (app : string) (is_factory : bool)
  : C (string * app_object) :=
  emit (EvImport app is_factory);; lift (import_from_string app is_factory).

Definition _run_imported_app (app_obj : app_object) (extra_options : AnyDict)
    (log_config : option string) (log_level app_level : Z) : C unit :=
  if negb (is_Application (app_kind app_obj)) then
    throw (Exn BadParameter
             ("Imported object " +:+ dquote +:+ app_repr app_obj +:+ dquote
              +:+ " must be " +:+ dquote +:+ "Application" +:+ dquote
              +:+ " type."))
  else
    (if (0 <? log_level)%Z then emit (EvSetLogLevel log_level) else ret tt);;
    match log_config with
    | Some path => emit (EvSetLogConfig path)
    | None => ret tt
    end;;
    (if uvloop_usable then emit EvUvloopInstall else ret tt);;
    emit (EvAnyioRun app_level extra_options);;
    match app_run app_obj app_level extra_options with
    | RunReturns => ret tt
    | RunValidationError fields => emit (EvShowError fields);; sys_exit 1
    | RunRaises e => throw e
    end.

Definition _run (app : string) (extra_options : AnyDict) (is_factory : bool)
    (log_config : option string) (log_level app_level : Z) : C unit :=
  r ← import_app app is_factory;
  _run_imported_app r.2 extra_options log_config log_level app_level.

Definition run (ctx_args : list string) (app : string) (workers : Z)
    (log_level : LogLevels) (log_config : option string) (reload : bool)
    (watch_extensions : list string) (app_dir : string) (is_factory : bool)
  : C unit :=
  (if negb (bool_decide (watch_extensions = [])) && negb reload then
     echo (PStr ("Extra reload extensions has no effect without `--reload` flag."
                 +:+ newline +:+ "Probably, you forgot it?"))
   else ret tt);;
  let parsed := parse_cli_args app ctx_args in
  let app := parsed.1 in
  let extra := parsed.2 in
  let casted_log_level := get_log_level log_level in
  (if negb (bool_decide (app_dir = EmptyString)) then emit (EvSysPathInsert app_dir)
   else ret tt);;
  imported ← import_app app is_factory;
  let module_path := imported.1 in
  let app_obj := imported.2 in
  if reload && (1 <? workers)%Z then
    throw (Exn SetupError "You can't use reload option with multiprocessing")
  else if reload then
    if watchfiles_installed then
      let reload_dirs :=
        if negb (bool_decide (app_dir = ".")) then [module_path; app_dir]
        else [module_path] in
      emit (EvWatchReloader reload_dirs watch_extensions);;
      lift watch_reloader_run
    else
      emit (EvWarn INSTALL_WATCHFILES);;
      _run app extra is_factory log_config casted_log_level INFO
  else if (1 <? workers)%Z then
    match app_kind app_obj with
    | FastStream => emit (EvMultiprocess workers DEBUG);; lift multiprocess_run
    | AsgiFastStream =>
        emit (EvASGIMultiprocess workers);; lift asgi_multiprocess_run
    | _ =>
        throw (Exn BadParameter
                 ("Unexpected app type, expected FastStream or AsgiFastStream, got: "
                  +:+ app_type_repr app_obj +:+ "."))
    end
  else
    _run_imported_app app_obj extra log_config casted_log_level INFO.

(** Lines 309-310: [async with broker:], whose block returns what
    [broker.publish] gives for the keyword arguments [extra]. *)
Definition publish_in_scope (broker : BrokerUsecase) (extra : AnyDict) : C value :=
  emit EvBrokerEnter;;
  lift (enter_result broker);;
  emit (EvBrokerPublish extra);;
  match publish_result broker extra with
  | Return reply =>
      emit (EvBrokerExit None);;
      lift (exit_result broker None);;
      ret reply
  | Raise e =>
      emit (EvBrokerExit (Some e));;
      lift (exit_result broker (Some e));;
      throw e
  end.

Definition publish_message (broker : BrokerUsecase) (extra : AnyDict) : C value :=
  try_except (publish_in_scope broker extra)
    (fun e =>
       echo (PStr ("Error when broker was publishing: " +:+ exn_msg e));;
       sys_exit 1).

Definition publish (ctx_args : list string) (app message : string)
    (rpc is_factory : bool) : C unit :=
  let parsed := parse_cli_args app ctx_args in
  let app := parsed.1 in
  let extra := <["rpc" := VBool rpc]> (<["message" := VStr message]> parsed.2) in
  try_except
    ((if bool_decide (app = EmptyString) then
        throw (Exn ValueError "App parameter is required.")
      else ret tt);;
     (if bool_decide (message = EmptyString) then
        throw (Exn ValueError "Message parameter is required.")
      else ret tt);;
     imported ← import_app app is_factory;
     match app_broker imported.2 with
     | None => throw (Exn ValueError "Broker instance not found in the app.")
     | Some broker =>
         result ← publish_message broker extra;
         if rpc then echo (PVal result) else ret tt
     end)
    (fun e => echo (PStr ("Publish error: " +:+ exn_msg e));; sys_exit 1).

End WithEnvironment.

End Cli.

(** * Vocabulary of the properties *)
Module Spec.
Import Router.

(** The hooks that a loop over [hs] calls: those up to and including the
    first one that raises. *)
Fixpoint executed (hs : list hook) (app : FastAPI) : list hook :=
  match hs with
  | [] => []
  | h :: hs' =>
      h :: match hook_call h app with
           | Return _ => executed hs' app
           | Raise _ => []
           end
  end.

(** The events of calling the hooks [hs], in list order. *)
Definition calls (ev : string -> event) (hs : list hook) : list event :=
  map (fun h => ev (hook_name h)) hs.

(** The hook returns (rather than raises) on [app]. *)
Definition returnsb (app : FastAPI) (h : hook) : bool :=
  match hook_call h app with
  | Return _ => true
  | Raise _ => false
  end.

(** The hook returns on [app], and what it returns has no key [k]. *)
Definition silent_on (k : string) (app : FastAPI) (h : hook) : bool :=
  match hook_call h app with
  | Return None => true
  | Return (Some d) =>
      match d !! k with
      | None => true
      | Some _ => false
      end
  | Raise _ => false
  end.

(** The context after merging what the hooks [hs] return, in list order,
    into [context]; the exception of the first hook that raises. *)
Fixpoint merged (hs : list hook) (app : FastAPI) (context : AnyDict)
  : result AnyDict :=
  match hs with
  | [] => Return context
  | h :: hs' =>
      match hook_call h app with
      | Return r => merged hs' app (merge_hook_context context r)
      | Raise e => Raise e
      end
  end.

(** The exception of the first hook of [hs] that raises, if any. *)
Fixpoint first_raise (hs : list hook) (app : FastAPI) : result unit :=
  match hs with
  | [] => Return tt
  | h :: hs' =>
      match hook_call h app with
      | Return _ => first_raise hs' app
      | Raise e => Raise e
      end
  end.

(** A block of the host that calls nothing of the bridge and ends with [r]:
    it returns, or raises. *)
Definition host_block {Schema : Type} (r : result unit)
  : option AnyDict -> M (Schema := Schema) unit :=
  fun _ => lift r.

(** The legacy double invocation: the host enters the router's lifespan
    inside the same lifespan, as FastAPI does when the router's
    [lifespan_context] is passed to the application by hand and the router
    is included as well. *)
Definition entered_twice {Schema : Type}
    (get_app_schema : StreamRouter -> result Schema)
    (lc : host_lifespan) (env : broker_calls) (app : FastAPI)
  : M (Schema := Schema) unit :=
  lifespan_scope get_app_schema lc env app
    (fun _ => lifespan_scope get_app_schema lc env app (host_block (Return tt))).

End Spec.

(** * Concrete inputs *)
Module Samples.
Import Router.

Definition app0 : FastAPI :=
  {| app_title := "service";
     app_description := "demo";
     app_version := "0.1.0";
     app_contact := None;
     app_license_info := None |}.

Definition boom : exn := Exn UserError "boom".

Definition hook_A : hook :=
  {| hook_name := "A"; hook_call := fun _ => Return (Some {["x" := VInt 1]}) |}.
Definition hook_B : hook :=
  {| hook_name := "B"; hook_call := fun _ => Return (Some {["x" := VInt 2]}) |}.
Definition hook_none : hook :=
  {| hook_name := "N"; hook_call := fun _ => Return None |}.
Definition hook_raising : hook :=
  {| hook_name := "R"; hook_call := fun _ => Raise boom |}.

(** [_DefaultLifespan]: yields nothing, suppresses nothing. *)
Definition default_lifespan : host_lifespan :=
  {| lc_enter := fun _ => Return None; lc_exit := fun _ => Return false |}.


Definition broker_ok : broker_calls :=
  {| start_result := Return tt; stop_result := Return tt |}.
Definition broker_down : broker_calls :=
  {| start_result := Raise boom; stop_result := Return tt |}.

Definition schema_of : StreamRouter (Schema := unit) -> result unit :=
  fun _ => Return tt.

(** [StreamRouter()] with a broker whose handle is 7. *)
Definition fresh : StreamRouter (Schema := unit) :=
  init 7 true true (Some "/asyncapi").

Definition with_A_B : StreamRouter (Schema := unit) :=
  after_startup (after_startup fresh hook_A) hook_B.

Definition with_raising_shutdown : StreamRouter (Schema := unit) :=
  on_broker_shutdown (on_broker_shutdown fresh hook_raising) hook_A.


(** A message that carries background work, and the [after_processed] of
    [BaseMiddleware], which returns [False]. *)
Definition message_with_background : Middleware.StreamMessage :=
  {| Middleware.background :=
       Some {| Middleware.tasks_id := 1; Middleware.tasks_call := Return tt |} |}.
Definition base_after_processed : option exn -> result (option bool) :=
  fun _ => Return (Some false).

(** Command line: arguments without extra options, an application that
    resolves, brokers that answer or fail. *)
Definition no_extra : string -> list string -> string * AnyDict :=
  fun app _ => (app, ∅).
Definition any_level : unit -> Z := fun _ => 0%Z.

Definition broker_replying : Cli.BrokerUsecase :=
  {| Cli.enter_result := Return tt;
     Cli.publish_result := fun _ => Return (VStr "pong");
     Cli.exit_result := fun _ => Return tt |}.
Definition broker_unreachable : Cli.BrokerUsecase :=
  {| Cli.enter_result := Raise boom;
     Cli.publish_result := fun _ => Return VNone;
     Cli.exit_result := fun _ => Return tt |}.
Definition broker_failing_publish : Cli.BrokerUsecase :=
  {| Cli.enter_result := Return tt;
     Cli.publish_result := fun _ => Raise boom;
     Cli.exit_result := fun _ => Return tt |}.

Definition app_with (b : option Cli.BrokerUsecase) : Cli.app_object :=
  {| Cli.app_kind := Cli.FastStream;
     Cli.app_repr := "app";
     Cli.app_type_repr := "FastStream";
     Cli.app_run := fun _ _ => Cli.RunReturns;
     Cli.app_broker := b |}.

Definition resolving (b : option Cli.BrokerUsecase)
  : string -> bool -> result (string * Cli.app_object) :=
  fun _ _ => Return ("main", app_with b).

End Samples.

(** * Further vocabulary and inputs *)
Module More.
Import Router.

Definition is_on_shutdown (e : event) : bool :=
  match e with EvOnShutdown _ => true | _ => false end.
Definition is_lifespan_enter (e : event) : bool :=
  match e with EvLifespanEnter => true | _ => false end.
Definition is_lifespan_exit (e : event) : bool :=
  match e with EvLifespanExit _ => true | _ => false end.
Definition is_include_router (e : event) : bool :=
  match e with EvIncludeRouter => true | _ => false end.

(** The hook returns [None] or an empty mapping on [app]. *)
Definition returns_nothing (app : FastAPI) (h : hook) : bool :=
  match hook_call h app with
  | Return r => negb (truthy r)
  | Raise _ => false
  end.

(** What the host lifespan yielded, read as a mapping. *)
Definition host_context (maybe_context : option AnyDict) : AnyDict :=
  match maybe_context with
  | None => ∅
  | Some m => m
  end.

(** Command line events: a supervisor of processes is started; the
    application is run in this process; the application string is
    imported. *)
Definition is_supervisor (e : Cli.event) : bool :=
  match e with
  | Cli.EvWatchReloader _ _ | Cli.EvMultiprocess _ _ | Cli.EvASGIMultiprocess _ =>
      true
  | _ => false
  end.
Definition is_app_run (e : Cli.event) : bool :=
  match e with Cli.EvAnyioRun _ _ => true | _ => false end.
Definition is_import (e : Cli.event) : bool :=
  match e with Cli.EvImport _ _ => true | _ => false end.
Definition is_set_log_level (e : Cli.event) : bool :=
  match e with Cli.EvSetLogLevel _ => true | _ => false end.

(** The hint [run] prints for extensions given without the reload flag. *)
Definition extensions_hint : string :=
  "Extra reload extensions has no effect without `--reload` flag."
  +:+ newline +:+ "Probably, you forgot it?".

(** What [_run_imported_app] does before it runs the application. *)
Definition preparation (uvloop_usable : bool) (log_config : option string)
    (log_level : Z) : list Cli.event :=
  (if (0 <? log_level)%Z then [Cli.EvSetLogLevel log_level] else [])
  ++ match log_config with
     | Some path => [Cli.EvSetLogConfig path]
     | None => []
     end
  ++ (if uvloop_usable then [Cli.EvUvloopInstall] else []).

(** What [run] does up to and including the import of [app]. *)
Definition arrival (app : string) (reload : bool) (watch_extensions : list string)
    (app_dir : string) (is_factory : bool) : list Cli.event :=
  (if negb (bool_decide (watch_extensions = [])) && negb reload
   then [Cli.EvEcho (Cli.PStr extensions_hint)] else [])
  ++ (if negb (bool_decide (app_dir = EmptyString))
      then [Cli.EvSysPathInsert app_dir] else [])
  ++ [Cli.EvImport app is_factory].



(** Inputs. *)
Definition hook_empty : hook :=
  {| hook_name := "E"; hook_call := fun _ => Return (Some ∅) |}.

Definition host_with_db : host_lifespan :=
  {| lc_enter := fun _ => Return (Some {["db" := VStr "pool"]});
     lc_exit := fun _ => Return false |}.

Definition host_failing : host_lifespan :=
  {| lc_enter := fun _ => Raise Samples.boom; lc_exit := fun _ => Return false |}.

Definition broker_stop_failing : broker_calls :=
  {| start_result := Return tt;
     stop_result := Raise (Exn UserError "stop failed") |}.

Definition schema_failing : StreamRouter (Schema := unit) -> result unit :=
  fun _ => Raise Samples.boom.

Definition without_docs : StreamRouter (Schema := unit) :=
  init 7 true false (Some "/asyncapi").

Definition without_state : StreamRouter (Schema := unit) :=
  init 7 false true (Some "/asyncapi").

Definition quiet_hooks : StreamRouter (Schema := unit) :=
  after_startup (after_startup Samples.fresh Samples.hook_none) hook_empty.

Definition broker_failing_close : Cli.BrokerUsecase :=
  {| Cli.enter_result := Return tt;
     Cli.publish_result := fun _ => Return (VStr "pong");
     Cli.exit_result := fun _ => Raise Samples.boom |}.

Definition with_message_option : string -> list string -> string * AnyDict :=
  fun app _ => (app, {["message" := VStr "from options"; "topic" := VStr "in"]}).

Definition failing_import : string -> bool -> result (string * Cli.app_object) :=
  fun _ _ => Raise (Exn BadParameter "no such module").

Definition app_of_kind (k : Cli.app_type) : Cli.app_object :=
  {| Cli.app_kind := k;
     Cli.app_repr := "obj";
     Cli.app_type_repr := "type";
     Cli.app_run := fun _ _ => Cli.RunReturns;
     Cli.app_broker := None |}.

Definition resolving_kind (k : Cli.app_type)
  : string -> bool -> result (string * Cli.app_object) :=
  fun _ _ => Return ("main", app_of_kind k).

End More.

(** * The lifespan bridge *)
Module RouterFacts.
Import Router Spec.

Lemma count_app (p : event -> bool) (t1 t2 : list event) :
  count p (t1 ++ t2) = count p t1 + count p t2.
Proof. unfold count. by rewrite List.filter_app, length_app. Qed.

Lemma count_calls_other (p : event -> bool) (ev : string -> event) (hs : list hook) :
  (forall n, p (ev n) = false) -> count p (calls ev hs) = 0.
Proof.
  intros Hp. induction hs as [|h hs IH]; [done|].
  unfold count in *. simpl. by rewrite Hp.
Qed.

Section Bridge.
Context {Schema : Type}.
Variable get_app_schema : @StreamRouter Schema -> result Schema.
Implicit Types (self : @StreamRouter Schema) (app : FastAPI)
  (lc : host_lifespan) (env : broker_calls) (hs : list hook).

(** ** The two hook loops *)

Lemma run_after_startup_eq hs app context self :
  run_after_startup hs app context self
  = (self, calls EvAfterStartup (executed hs app), merged hs app context).
Proof.
  revert context. induction hs as [|h hs IH]; intros context; [done|].
  simpl. unfold mbind, M_bind, bind, call_hook, emit, lift. simpl.
  destruct (hook_call h app) as [r|e]; simpl; [|done].
  unfold mbind, M_bind, bind in IH. by rewrite IH.
Qed.

Lemma run_on_shutdown_eq hs app self :
  run_on_shutdown hs app self
  = (self, calls EvOnShutdown (executed hs app), first_raise hs app).
Proof.
  induction hs as [|h hs IH]; [done|].
  simpl. unfold mbind, M_bind, bind, call_hook, emit, lift. simpl.
  destruct (hook_call h app) as [r|e]; simpl; [|done].
  unfold mbind, M_bind, bind in IH. by rewrite IH.
Qed.

(** ** The generator, piece by piece *)

Lemma capture_docs_eq app self :
  capture_docs get_app_schema app self
  = match docs_router self with
    | None => (self, [], Return tt)
    | Some _ =>
        match get_app_schema (set_metadata self app) with
        | Return s =>
            (set_schema (set_metadata self app) (Some s), [EvIncludeRouter],
             Return tt)
        | Raise e => (set_metadata self app, [], Raise e)
        end
    end.
Proof.
  unfold capture_docs, mbind, M_bind, bind, get, put, lift, emit. simpl.
  destruct (docs_router self); [|done].
  by destruct (get_app_schema _).
Qed.

Lemma before_yield_eq env app mc self :
  before_yield env app mc self
  = if _lifespan_started self then
      (self,
       EvWarn lifespan_warning
         :: calls EvAfterStartup (executed (_after_startup_hooks self) app),
       merged (_after_startup_hooks self) app (initial_context self mc))
    else
      match start_result env with
      | Return _ =>
          (set_lifespan_started self true,
           EvBrokerStart
             :: calls EvAfterStartup (executed (_after_startup_hooks self) app),
           merged (_after_startup_hooks self) app (initial_context self mc))
      | Raise e => (self, [EvBrokerStart], Raise e)
      end.
Proof.
  unfold before_yield, start_or_warn, mbind, M_bind, bind, get, put, lift, emit.
  simpl. destruct (_lifespan_started self); simpl.
  - by rewrite run_after_startup_eq.
  - destruct (start_result env) as [[]|e]; simpl; [|done].
    by rewrite run_after_startup_eq.
Qed.


Lemma exit_on_error_eq {A} lc (m : M A) self :
  exit_on_error lc m self
  = match m self with
    | (self1, t1, Return a) => (self1, t1, Return a)
    | (self1, t1, Raise e) =>
        (self1, t1 ++ [EvLifespanExit (Some e)],
         match lc_exit lc (Some e) with
         | Raise e' => Raise e'
         | Return true => Raise (Exn RuntimeError "generator didn't yield")
         | Return false => Raise e
         end)
    end.
Proof. done. Qed.

Lemma startup_eq lc env app self :
  startup get_app_schema lc env app self
  = match capture_docs get_app_schema app self with
    | (self1, t1, Raise e) => (self1, EvSetApplication :: t1, Raise e)
    | (self1, t1, Return _) =>
        match lc_enter lc app with
        | Raise e => (self1, EvSetApplication :: t1 ++ [EvLifespanEnter], Raise e)
        | Return mc =>
            match exit_on_error lc (before_yield env app mc) self1 with
            | (self2, t2, r) =>
                (self2, EvSetApplication :: t1 ++ EvLifespanEnter :: t2, r)
            end
        end
    end.
Proof.
  unfold startup, mbind, M_bind, bind, emit, lift. simpl.
  destruct (capture_docs get_app_schema app self) as [[self1 t1] [[]|e]]; [|done].
  destruct (lc_enter lc app) as [mc|e]; [|done].
  by destruct (exit_on_error lc (before_yield env app mc) self1) as [[self2 t2] r].
Qed.

Lemma after_yield_eq env app thrown self :
  after_yield env app thrown self
  = (self,
     match thrown with
     | Some _ => []
     | None => calls EvOnShutdown (executed (_on_shutdown_hooks self) app)
     end ++ [EvBrokerStop],
     match stop_result env with
     | Raise e => Raise e
     | Return _ =>
         match thrown with
         | Some e => Raise e
         | None => first_raise (_on_shutdown_hooks self) app
         end
     end).
Proof.
  unfold after_yield, try_finally, mbind, M_bind, bind, get, throw, emit, lift.
  destruct thrown as [e|]; simpl.
  - by destruct (stop_result env).
  - rewrite run_on_shutdown_eq. simpl. by destruct (stop_result env).
Qed.

Lemma shutdown_trace lc env app thrown self :
  trace_of (shutdown lc env app thrown self)
  = match thrown with
    | Some _ => []
    | None => calls EvOnShutdown (executed (_on_shutdown_hooks self) app)
    end
    ++ [EvBrokerStop;
        EvLifespanExit (raised (result_of (after_yield env app thrown self)))].
Proof.
  unfold shutdown. rewrite after_yield_eq. unfold trace_of, result_of. simpl.
  by rewrite <- app_assoc.
Qed.

Lemma shutdown_state lc env app thrown self :
  state_of (shutdown lc env app thrown self) = self.
Proof. unfold shutdown. by rewrite after_yield_eq. Qed.


Lemma count_cons (p : event -> bool) (e : event) (t : list event) :
  count p (e :: t) = (if p e then 1 else 0) + count p t.
Proof. unfold count. simpl. by destruct (p e). Qed.

Lemma count_nil (p : event -> bool) : count p [] = 0.
Proof. done. Qed.

(** Splits a run of [startup] into the paths the generator can take. *)
Ltac startup_paths :=
  rewrite ?startup_eq, ?capture_docs_eq in *;
  repeat (case_match; simplify_eq;
          rewrite ?exit_on_error_eq, ?before_yield_eq in * );
  unfold state_of, trace_of, result_of in *; simpl in *.

(** Counts the events of a trace written out as a list. *)
Ltac count_events :=
  repeat first
    [ rewrite count_app
    | rewrite count_cons
    | rewrite count_nil
    | rewrite (count_calls_other is_start) by done
    | rewrite (count_calls_other is_stop) by done
    | rewrite (count_calls_other is_warn) by done ];
  simpl.

Lemma startup_never_stops lc env app self :
  count is_stop (trace_of (startup get_app_schema lc env app self)) = 0.
Proof. startup_paths; by count_events. Qed.

Lemma startup_warns_never_when_unstarted lc env app self :
  _lifespan_started self = false ->
  count is_warn (trace_of (startup get_app_schema lc env app self)) = 0.
Proof. intros Hs. startup_paths; try congruence; by count_events. Qed.

Lemma startup_starts_never_when_started lc env app self :
  _lifespan_started self = true ->
  count is_start (trace_of (startup get_app_schema lc env app self)) = 0.
Proof. intros Hs. startup_paths; try congruence; by count_events. Qed.

Lemma startup_starts_at_most_once lc env app self :
  if _lifespan_started self then
    count is_start (trace_of (startup get_app_schema lc env app self)) = 0
  else
    count is_start (trace_of (startup get_app_schema lc env app self)) <= 1.
Proof.
  destruct (_lifespan_started self) eqn:Hs.
  - by apply startup_starts_never_when_started.
  - startup_paths; try congruence; count_events; lia.
Qed.

Lemma failed_start_fails lc env app e self :
  _lifespan_started self = false ->
  start_result env = Raise e ->
  ∃ e', result_of (startup get_app_schema lc env app self) = Raise e'.
Proof. intros Hs He. startup_paths; try congruence; eauto. Qed.

Lemma startup_returns_started lc env app self :
  match result_of (startup get_app_schema lc env app self) with
  | Return _ =>
      _lifespan_started (state_of (startup get_app_schema lc env app self)) = true
  | Raise _ => True
  end.
Proof. startup_paths; done. Qed.


Lemma lifespan_scope_eq lc env app body self :
  lifespan_scope get_app_schema lc env app body self
  = match startup get_app_schema lc env app self with
    | (self1, t1, Raise e) => (self1, t1, Raise e)
    | (self1, t1, Return context) =>
        match body (yielded self1 context) self1 with
        | (self2, t2, r2) =>
            match shutdown lc env app (raised r2) self2 with
            | (self3, t3, r3) => (self3, t1 ++ t2 ++ t3, r3)
            end
        end
    end.
Proof.
  unfold lifespan_scope, serve_then_shutdown, mbind, M_bind, bind.
  destruct (startup get_app_schema lc env app self) as [[self1 t1] [context|e]];
    [|done].
  destruct (body (yielded self1 context) self1) as [[self2 t2] r2].
  by destruct (shutdown lc env app (raised r2) self2) as [[self3 t3] r3].
Qed.

Lemma shutdown_stops_once lc env app thrown self :
  count is_stop (trace_of (shutdown lc env app thrown self)) = 1.
Proof. rewrite shutdown_trace. destruct thrown; by count_events. Qed.

(** C1, as amended. Every scope that is closed after its [yield] invokes
    broker stop exactly once, after the on-shutdown hooks it ran and before
    the host lifespan is left, whether the hooks or the host's block raised
    or not. A scope that reaches its [yield] has the started flag set and
    invokes stop once in all; a scope entered with the flag unset in which
    broker start raises invokes no stop. Stop is invoked once per scope, not
    once per start: a scope entered with the flag set invokes no start and
    still, if it reaches its [yield], one stop. *)
Theorem stop_once_per_served_scope lc env app thrown r self :
  let scope := lifespan_scope get_app_schema lc env app (host_block r) self in
  let pass := startup get_app_schema lc env app self in
  trace_of (shutdown lc env app thrown self)
  = match thrown with
    | Some _ => []
    | None => calls EvOnShutdown (executed (_on_shutdown_hooks self) app)
    end
    ++ [EvBrokerStop;
        EvLifespanExit (raised (result_of (after_yield env app thrown self)))]
  ∧ count is_stop (trace_of (shutdown lc env app thrown self)) = 1
  ∧ match result_of pass with
    | Return _ =>
        count is_stop (trace_of scope) = 1
        ∧ _lifespan_started (state_of pass) = true
    | Raise _ => True
    end
  ∧ match _lifespan_started self, start_result env with
    | false, Raise _ => count is_stop (trace_of scope) = 0
    | false, Return _ => count is_start (trace_of scope) <= 1
    | true, _ => count is_start (trace_of scope) = 0
    end.
Proof.
  intros scope pass.
  split; [apply shutdown_trace|].
  split; [apply shutdown_stops_once|].
  assert (Hscope : ∀ p, (∀ n, p (EvOnShutdown n) = false) ->
            p EvBrokerStop = false -> (∀ x, p (EvLifespanExit x) = false) ->
            match result_of pass with
            | Return _ => count p (trace_of scope) = count p (trace_of pass)
            | Raise _ => trace_of scope = trace_of pass
            end).
  { intros p Hp1 Hp2 Hp3. subst scope pass. rewrite lifespan_scope_eq.
    destruct (startup get_app_schema lc env app self) as [[self1 t1] [c|e]];
      [|done].
    unfold host_block, lift.
    pose proof (shutdown_trace lc env app (raised r) self1) as Ht.
    destruct (shutdown lc env app (raised r) self1) as [[self3 t3] r3].
    unfold trace_of, result_of in *; simpl in *. rewrite Ht.
    rewrite !count_app, !count_cons, count_nil, Hp2, Hp3.
    destruct (raised r); [by rewrite count_nil|].
    rewrite count_calls_other by done. lia. }
  split.
  - pose proof (startup_never_stops lc env app self) as H0.
    pose proof (startup_returns_started lc env app self) as Hf.
    fold pass in H0, Hf.
    assert (Hstop : match result_of pass with
                    | Return _ => count is_stop (trace_of scope) = 1
                    | Raise _ => True
                    end).
    { subst scope pass. rewrite lifespan_scope_eq.
      destruct (startup get_app_schema lc env app self) as [[self1 t1] [c|e]];
        [|done].
      pose proof (shutdown_stops_once lc env app (raised r) self1) as H1.
      unfold host_block, lift.
      destruct (shutdown lc env app (raised r) self1) as [[self3 t3] r3].
      unfold trace_of, result_of in *; simpl in *.
      rewrite count_app, H0. by simpl. }
    by destruct (result_of pass).
  - pose proof (startup_starts_at_most_once lc env app self) as Hstart.
    specialize (Hscope is_start (fun _ => eq_refl) eq_refl (fun _ => eq_refl)).
    fold pass in Hstart.
    assert (Hsame : count is_start (trace_of scope) = count is_start (trace_of pass)).
    { destruct (result_of pass); [done|by rewrite Hscope]. }
    destruct (_lifespan_started self) eqn:Hs.
    + by rewrite Hsame.
    + destruct (start_result env) as [[]|e] eqn:He; [by rewrite Hsame|].
      destruct (failed_start_fails lc env app e self Hs He) as [e' He'].
      pose proof (startup_never_stops lc env app self) as H0.
      clear Hscope Hsame Hstart. subst scope pass. rewrite lifespan_scope_eq.
      destruct (startup get_app_schema lc env app self) as [[self1 t1] [c|e1]];
        [discriminate|done].
Qed.

Lemma filter_calls_same (p : event -> bool) (ev : string -> event) hs :
  (forall n, p (ev n) = true) -> List.filter p (calls ev hs) = calls ev hs.
Proof.
  intros Hp. induction hs as [|h hs IH]; [done|].
  simpl. by rewrite Hp, IH.
Qed.

Lemma filter_calls_other (p : event -> bool) (ev : string -> event) hs :
  (forall n, p (ev n) = false) -> List.filter p (calls ev hs) = [].
Proof.
  intros Hp. induction hs as [|h hs IH]; [done|].
  simpl. by rewrite Hp, IH.
Qed.

(** Filters a trace written out as a list. *)
Ltac filter_events :=
  simpl;
  rewrite ?List.filter_app,
    ?(filter_calls_same is_after_startup EvAfterStartup),
    ?(filter_calls_other is_warn EvAfterStartup),
    ?(filter_calls_other is_start EvAfterStartup) by done;
  simpl; rewrite ?app_nil_r.

Lemma first_entry_starts_once lc env app self :
  _lifespan_started self = false ->
  _lifespan_started (state_of (startup get_app_schema lc env app self)) = true ->
  count is_start (trace_of (startup get_app_schema lc env app self)) = 1.
Proof. intros Hs Hs'. startup_paths; try congruence; by count_events. Qed.

Lemma second_entry lc env app mc self :
  _lifespan_started self = true ->
  result_of (capture_docs get_app_schema app self) = Return tt ->
  lc_enter lc app = Return mc ->
  let second := startup get_app_schema lc env app self in
  List.filter is_warn (trace_of second) = [EvWarn lifespan_warning]
  ∧ _lifespan_started (state_of second) = true
  ∧ List.filter is_after_startup (trace_of second)
    = calls EvAfterStartup (executed (_after_startup_hooks self) app)
  ∧ match merged (_after_startup_hooks self) app
            (initial_context (state_of (capture_docs get_app_schema app self)) mc)
    with
    | Return context => result_of second = Return context
    | Raise _ => ∃ e, result_of second = Raise e
    end.
Proof.
  intros Hs Hdocs Henter second. subst second.
  startup_paths; try congruence; simplify_eq;
    repeat split; try done; try (by filter_events);
    repeat case_match; simplify_eq; eauto; congruence.
Qed.


(** C2. A router whose broker was started by a first entry of the startup
    sequence, and whose startup sequence is entered again (and again comes to
    the block of the host lifespan): across both entries broker start is
    invoked once and one warning, the compatibility warning, is emitted, both
    in the order first entry, second entry. The second entry invokes no start,
    leaves the started flag set, and goes on as a first entry does: it runs
    the after-startup hooks in order and its result is the merged context. *)
Theorem second_entry_starts_once_warns_once lc1 lc2 env1 env2 app mc2 self :
  let first := startup get_app_schema lc1 env1 app self in
  let second := startup get_app_schema lc2 env2 app (state_of first) in
  _lifespan_started self = false ->
  _lifespan_started (state_of first) = true ->
  result_of (capture_docs get_app_schema app (state_of first)) = Return tt ->
  lc_enter lc2 app = Return mc2 ->
  count is_start (trace_of first ++ trace_of second) = 1
  ∧ count is_warn (trace_of first ++ trace_of second) = 1
  ∧ count is_start (trace_of second) = 0
  ∧ List.filter is_warn (trace_of second) = [EvWarn lifespan_warning]
  ∧ _lifespan_started (state_of second) = true
  ∧ List.filter is_after_startup (trace_of second)
    = calls EvAfterStartup (executed (_after_startup_hooks (state_of first)) app)
  ∧ match merged (_after_startup_hooks (state_of first)) app
            (initial_context
               (state_of (capture_docs get_app_schema app (state_of first))) mc2)
    with
    | Return context => result_of second = Return context
    | Raise _ => ∃ e, result_of second = Raise e
    end.
Proof.
  intros first second Hs Hs' Hdocs Henter.
  pose proof (first_entry_starts_once lc1 env1 app self Hs Hs') as Hstart1.
  pose proof (startup_warns_never_when_unstarted lc1 env1 app self Hs) as Hwarn1.
  pose proof (startup_starts_never_when_started lc2 env2 app _ Hs') as Hstart2.
  destruct (second_entry lc2 env2 app mc2 _ Hs' Hdocs Henter)
    as (Hwarn2 & Hflag & Hhooks & Hres).
  fold first in Hstart1, Hwarn1. fold second in Hstart2, Hwarn2, Hflag, Hhooks, Hres.
  repeat split; try done.
  - rewrite count_app, Hstart1, Hstart2. done.
  - rewrite count_app, Hwarn1. unfold count. by rewrite Hwarn2.
Qed.

(** C10. When broker start raises in a pass entered with the started flag
    unset: the flag is still unset afterwards, and so is everything else the
    block of the host lifespan could assign (the router is as the capture of
    the documentation metadata left it); no after-startup hook was called and
    broker stop was not invoked, neither by the startup half nor by the scope
    as a whole, which ends there with an exception without running the host's
    block. A later pass on that router emits no warning, and its block
    begins by invoking broker start. *)
Theorem failed_start_leaves_bridge_unstarted lc env lc2 env2 app mc2 body e self :
  let pass := startup get_app_schema lc env app self in
  _lifespan_started self = false ->
  start_result env = Raise e ->
  _lifespan_started (state_of pass) = false
  ∧ state_of pass = state_of (capture_docs get_app_schema app self)
  ∧ count is_after_startup (trace_of pass) = 0
  ∧ count is_stop (trace_of pass) = 0
  ∧ (∃ e', result_of pass = Raise e')
  ∧ trace_of (lifespan_scope get_app_schema lc env app body self) = trace_of pass
  ∧ count is_warn
      (trace_of (startup get_app_schema lc2 env2 app (state_of pass))) = 0
  ∧ head (trace_of (before_yield env2 app mc2 (state_of pass)))
    = Some EvBrokerStart.
Proof.
  intros pass Hs Hstart.
  assert (Hflag : _lifespan_started (state_of pass) = false).
  { subst pass. startup_paths; congruence. }
  assert (Hraise : ∃ e', result_of pass = Raise e').
  { subst pass. startup_paths; try congruence; eauto. }
  split; [done|].
  split. { subst pass. startup_paths; congruence. }
  split. { subst pass. startup_paths; try congruence; by count_events. }
  split; [apply startup_never_stops|].
  split; [done|].
  split.
  { rewrite lifespan_scope_eq. destruct Hraise as [e' He']. fold pass.
    destruct pass as [[self1 t1] [context|e1]]; [discriminate|done]. }
  split; [by apply startup_warns_never_when_unstarted|].
  rewrite before_yield_eq, Hflag. by destruct (start_result env2).
Qed.


(** ** Registration and merging *)

Lemma registered_hooks self hs :
  _after_startup_hooks (foldl after_startup self hs)
  = _after_startup_hooks self ++ hs.
Proof.
  revert self. induction hs as [|h hs IH]; intros self; simpl.
  - by rewrite app_nil_r.
  - rewrite IH. simpl. by rewrite <- app_assoc.
Qed.

Lemma registered_fields self hs :
  _lifespan_started (foldl after_startup self hs) = _lifespan_started self
  ∧ broker (foldl after_startup self hs) = broker self
  ∧ setup_state (foldl after_startup self hs) = setup_state self.
Proof.
  revert self. induction hs as [|h hs IH]; intros self; simpl; [done|].
  destruct (IH (after_startup self h)) as (-> & -> & ->). done.
Qed.

Lemma executed_all hs app :
  forallb (returnsb app) hs = true -> executed hs app = hs.
Proof.
  induction hs as [|h hs IH]; [done|]. simpl. unfold returnsb at 1.
  destruct (hook_call h app); [|done]. simpl. intros H. by rewrite IH.
Qed.

Lemma merged_app hs1 hs2 app (context : AnyDict) :
  merged (hs1 ++ hs2) app context
  = match merged hs1 app context with
    | Return c => merged hs2 app c
    | Raise e => Raise e
    end.
Proof.
  revert context. induction hs1 as [|h hs1 IH]; intros context; [done|].
  simpl. by destruct (hook_call h app).
Qed.


Lemma merge_hook_context_new (context d : AnyDict) k v :
  d !! k = Some v -> merge_hook_context context (Some d) !! k = Some v.
Proof.
  intros Hk. unfold merge_hook_context, truthy, update.
  case_bool_decide as Hd; simpl.
  - subst d. by rewrite lookup_empty in Hk.
  - by apply lookup_union_Some_l.
Qed.

Lemma merge_hook_context_old (context d : AnyDict) k :
  d !! k = None -> merge_hook_context context (Some d) !! k = context !! k.
Proof.
  intros Hk. unfold merge_hook_context, truthy, update.
  case_bool_decide; simpl; [done|]. by apply lookup_union_r.
Qed.

Lemma merged_silent hs app k (context : AnyDict) :
  forallb (silent_on k app) hs = true ->
  ∃ c, merged hs app context = Return c ∧ c !! k = context !! k.
Proof.
  revert context. induction hs as [|h hs IH]; intros context; simpl; [eauto|].
  unfold silent_on at 1.
  destruct (hook_call h app) as [[d|]|e]; simpl; try done.
  - destruct (d !! k) eqn:Hk; [done|]. simpl. intros Hs.
    destruct (IH (merge_hook_context context (Some d)) Hs) as (c & -> & Hc).
    exists c. split; [done|]. by rewrite Hc, merge_hook_context_old.
  - intros Hs. apply (IH _ Hs).
Qed.

(** The value of a key comes from the last hook that returns it. *)
Lemma merged_last_wins hs1 h hs2 app d k v (context c : AnyDict) :
  hook_call h app = Return (Some d) ->
  d !! k = Some v ->
  forallb (silent_on k app) hs2 = true ->
  merged (hs1 ++ h :: hs2) app context = Return c ->
  c !! k = Some v.
Proof.
  intros Hh Hk Hs. rewrite merged_app.
  destruct (merged hs1 app context) as [c1|]; [|done]. simpl. rewrite Hh.
  destruct (merged_silent hs2 app k (merge_hook_context c1 (Some d)) Hs)
    as (c2 & -> & Hc2).
  intros [= <-]. rewrite Hc2. by apply merge_hook_context_new.
Qed.



Lemma initial_context_same_broker self self' mc :
  broker self' = broker self -> initial_context self' mc = initial_context self mc.
Proof. unfold initial_context. by intros ->. Qed.

Lemma capture_docs_keeps app self :
  let self1 := state_of (capture_docs get_app_schema app self) in
  _lifespan_started self1 = _lifespan_started self
  ∧ _after_startup_hooks self1 = _after_startup_hooks self
  ∧ _on_shutdown_hooks self1 = _on_shutdown_hooks self
  ∧ broker self1 = broker self
  ∧ setup_state self1 = setup_state self.
Proof. simpl. rewrite capture_docs_eq. by repeat case_match. Qed.

Lemma executed_prefix hs app : executed hs app `prefix_of` hs.
Proof.
  induction hs as [|h hs IH]; [done|]. simpl.
  destruct (hook_call h app).
  - by apply prefix_cons.
  - apply prefix_cons, prefix_nil.
Qed.

Lemma merged_returns_all hs app (context c : AnyDict) :
  merged hs app context = Return c -> executed hs app = hs.
Proof.
  revert context. induction hs as [|h hs IH]; intros context; [done|]. simpl.
  destruct (hook_call h app); [|done]. intros Hm. by rewrite (IH _ Hm).
Qed.

(** A first entry whose broker start succeeds. *)
Lemma startup_first lc env app mc self :
  _lifespan_started self = false ->
  result_of (capture_docs get_app_schema app self) = Return tt ->
  lc_enter lc app = Return mc ->
  start_result env = Return tt ->
  let run := startup get_app_schema lc env app self in
  let context := merged (_after_startup_hooks self) app (initial_context self mc) in
  trace_of run
  = EvSetApplication :: trace_of (capture_docs get_app_schema app self)
    ++ [EvLifespanEnter; EvBrokerStart]
    ++ calls EvAfterStartup (executed (_after_startup_hooks self) app)
    ++ match context with
       | Return _ => []
       | Raise e => [EvLifespanExit (Some e)]
       end
  ∧ match context with
    | Return c => result_of run = Return c
    | Raise _ => ∃ e, result_of run = Raise e
    end.
Proof.
  intros Hs Hdocs Henter Hstart run context. subst run context.
  destruct (capture_docs_keeps app self) as (Hf & Hh & _ & Hb & Hss).
  simpl in *. rewrite startup_eq.
  destruct (capture_docs get_app_schema app self) as [[self1 t1] [[]|e]];
    unfold state_of, trace_of, result_of in *; simpl in *; [|done].
  rewrite Henter, exit_on_error_eq, before_yield_eq, Hf, Hs, Hstart, Hh.
  rewrite (initial_context_same_broker self self1 mc Hb).
  destruct (merged _ app (initial_context self mc)) as [c|e]; simpl.
  - by rewrite app_nil_r.
  - split; [done|]. destruct (lc_exit lc (Some e)) as [[]|e']; eauto.
Qed.

(** C3. Hooks registered one after the other with [after_startup] on a
    router that has none are, in a first entry whose broker start succeeds,
    called in registration order, all of them after broker start, up to the
    first hook that raises, if one does. When every hook returns, all were
    called and the result is the context in which what they returned was
    merged in that order, so for every key the value is that of the last
    hook that returned the key. *)
Theorem after_startup_hooks_in_order_later_wins lc env app mc hs self :
  let self' := foldl after_startup self hs in
  let run := startup get_app_schema lc env app self' in
  let context := merged hs app (initial_context self mc) in
  _after_startup_hooks self = [] ->
  _lifespan_started self = false ->
  result_of (capture_docs get_app_schema app self') = Return tt ->
  lc_enter lc app = Return mc ->
  start_result env = Return tt ->
  _after_startup_hooks self' = hs
  ∧ executed hs app `prefix_of` hs
  ∧ trace_of run
    = EvSetApplication :: trace_of (capture_docs get_app_schema app self')
      ++ [EvLifespanEnter; EvBrokerStart]
      ++ calls EvAfterStartup (executed hs app)
      ++ match context with
         | Return _ => []
         | Raise e => [EvLifespanExit (Some e)]
         end
  ∧ match context with
    | Return c =>
        executed hs app = hs
        ∧ result_of run = Return c
        ∧ ∀ hs1 h hs2 d k v,
            hs = hs1 ++ h :: hs2 ->
            hook_call h app = Return (Some d) ->
            d !! k = Some v ->
            forallb (silent_on k app) hs2 = true ->
            c !! k = Some v
    | Raise _ => ∃ e, result_of run = Raise e
    end.
Proof.
  intros self' run context Hnone Hs Hdocs Henter Hstart.
  assert (Hhooks : _after_startup_hooks self' = hs).
  { subst self'. by rewrite registered_hooks, Hnone. }
  destruct (registered_fields self hs) as (Hf & Hb & _). fold self' in Hf, Hb.
  assert (Hs' : _lifespan_started self' = false) by (by rewrite Hf).
  destruct (startup_first lc env app mc self' Hs' Hdocs Henter Hstart)
    as (Ht & Hr).
  fold run in Ht, Hr. rewrite Hhooks in Ht, Hr.
  rewrite (initial_context_same_broker self self' mc Hb) in Ht, Hr.
  fold context in Ht, Hr.
  split; [done|]. split; [apply executed_prefix|]. split; [done|].
  destruct context as [c|e] eqn:Hc; [|done].
  split; [by eapply merged_returns_all|]. split; [done|].
  intros hs1 h hs2 d k v -> Hh Hk Hsil.
  by eapply merged_last_wins.
Qed.

(** An entry that comes to the [yield] hands over the merged context. *)
Lemma startup_result lc env app mc c self :
  result_of (capture_docs get_app_schema app self) = Return tt ->
  lc_enter lc app = Return mc ->
  _lifespan_started self = true ∨ start_result env = Return tt ->
  merged (_after_startup_hooks self) app (initial_context self mc) = Return c ->
  let run := startup get_app_schema lc env app self in
  result_of run = Return c ∧ setup_state (state_of run) = setup_state self.
Proof.
  intros Hdocs Henter Hstart Hm run. subst run.
  destruct (capture_docs_keeps app self) as (Hf & Hh & _ & Hb & Hss).
  simpl in *. rewrite startup_eq.
  destruct (capture_docs get_app_schema app self) as [[self1 t1] [[]|e]];
    unfold state_of, trace_of, result_of in *; simpl in *; [|done].
  rewrite Henter, exit_on_error_eq, before_yield_eq, Hf, Hh.
  rewrite (initial_context_same_broker self self1 mc Hb), Hm.
  destruct (_lifespan_started self); simpl; [done|].
  destruct Hstart as [Hx|Hx]; [done|]. by rewrite Hx.
Qed.


(** ** The documentation endpoints *)

Variable dumps_jsonable : Schema -> string.
Variable to_yaml : Schema -> string.
Variable get_asyncapi_html : Schema -> display -> string.

(** C6. While the stored schema is unset, each of the three endpoints
    raises the assertion error that asks to run the lifespan first, and so
    returns no response at all; the schema is unset on a router just
    built. *)
Theorem docs_endpoints_need_lifespan self d handle setup include schema_url :
  schema self = None ->
  schema (Schema := Schema) (init handle setup include schema_url) = None
  ∧ download_app_json_schema dumps_jsonable self = Raise lifespan_not_run
  ∧ download_app_yaml_schema to_yaml self = Raise lifespan_not_run
  ∧ serve_asyncapi_schema get_asyncapi_html self d = Raise lifespan_not_run
  ∧ exn_cls lifespan_not_run = AssertionError
  ∧ exn_msg lifespan_not_run = "You need to run application lifespan at first".
Proof.
  intros Hs.
  unfold download_app_json_schema, download_app_yaml_schema,
    serve_asyncapi_schema, assert_schema.
  by rewrite Hs.
Qed.

(** Once a pass of the startup has stored a schema, the endpoints answer
    with what the renderers make of it. *)
Lemma docs_endpoints_after_capture self s d :
  schema self = Some s ->
  download_app_json_schema dumps_jsonable self
  = Return {| content := dumps_jsonable s;
              content_type := "application/octet-stream" |}
  ∧ download_app_yaml_schema to_yaml self
    = Return {| content := to_yaml s;
                content_type := "application/octet-stream" |}
  ∧ serve_asyncapi_schema get_asyncapi_html self d
    = Return {| content := get_asyncapi_html s d; content_type := "text/html" |}.
Proof.
  intros Hs.
  unfold download_app_json_schema, download_app_yaml_schema,
    serve_asyncapi_schema, assert_schema.
  by rewrite Hs.
Qed.

End Bridge.

(** ** The properties on concrete runs *)

Import Samples.

(** The legacy double invocation on a router just built, with a broker that
    starts and stops fine: one start, two stops. Not every stop has a start
    of its own. *)
Lemma stop_twice_when_entered_twice :
  let t := trace_of (entered_twice schema_of default_lifespan broker_ok app0 fresh) in
  count is_start t = 1
  ∧ count is_stop t = 2
  ∧ ¬ (count is_stop t <= count is_start t).
Proof. vm_compute. repeat split; [done..|lia]. Qed.

(** A scope whose first on-shutdown hook raises: the second hook is not
    called, stop is. *)
Example stop_after_raising_hook :
  trace_of (shutdown default_lifespan broker_ok app0 None with_raising_shutdown)
  = [EvOnShutdown "R"; EvBrokerStop; EvLifespanExit (Some boom)].
Proof. reflexivity. Qed.

Lemma second_entry_starts_once_warns_once_witness :
  let first := startup schema_of default_lifespan broker_ok app0 with_A_B in
  let second := startup schema_of default_lifespan broker_ok app0 (state_of first) in
  count is_start (trace_of first ++ trace_of second) = 1
  ∧ count is_warn (trace_of first ++ trace_of second) = 1.
Proof.
  intros first second.
  destruct (second_entry_starts_once_warns_once schema_of
              default_lifespan default_lifespan broker_ok broker_ok app0 None
              with_A_B) as (H1 & H2 & _); [reflexivity..|].
  split; assumption.
Defined.

Lemma failed_start_leaves_bridge_unstarted_witness :
  _lifespan_started
    (state_of (startup schema_of default_lifespan broker_down app0 with_A_B))
  = false.
Proof.
  destruct (failed_start_leaves_bridge_unstarted schema_of
              default_lifespan broker_down default_lifespan broker_ok app0 None
              (host_block (Return tt)) boom with_A_B) as (H & _);
    [reflexivity..|].
  exact H.
Defined.

(** Hook A returns x = 1, hook B, registered after A, returns x = 2: the
    context has x = 2. *)
Lemma after_startup_hooks_in_order_later_wins_witness :
  ∃ context,
    result_of (startup schema_of default_lifespan broker_ok app0
                 (foldl after_startup fresh [hook_A; hook_B]))
    = Return context
    ∧ context !! "x" = Some (VInt 2).
Proof.
  destruct (after_startup_hooks_in_order_later_wins schema_of
              default_lifespan broker_ok app0 None [hook_A; hook_B] fresh)
    as (_ & _ & _ & H); [reflexivity..|].
  destruct (merged [hook_A; hook_B] app0 (initial_context fresh None))
    as [c|e] eqn:Hc; [|discriminate Hc].
  destruct H as (_ & Hr & Hlast).
  exists c. split; [exact Hr|].
  apply (Hlast [hook_A] hook_B [] {["x" := VInt 2]}); reflexivity.
Defined.


Lemma docs_endpoints_need_lifespan_witness :
  download_app_json_schema (fun _ : unit => "{}") fresh = Raise lifespan_not_run.
Proof.
  destruct (docs_endpoints_need_lifespan (fun _ : unit => "{}")
              (fun _ => "yaml") (fun _ _ => "html") fresh
              {| sidebar := true; info := true; servers := true;
                 operations := true; messages := true; schemas := true;
                 errors := true; expandMessageExamples := true |}
              7 true true None) as (_ & H & _); [reflexivity|].
  exact H.
Defined.

End RouterFacts.

(** * The background middleware *)
Module MiddlewareFacts.
Import Middleware.

Section Exit.
Variable after_processed : option exn -> result (option bool).

(** C4, as amended. When the scope of a message ends without an exception,
    the background work attached to the message is awaited first, before
    [after_processed]; when the scope ends with an exception, the background
    work is not awaited and only [after_processed] is called. *)
Theorem background_awaited_on_normal_exit_only message bg e :
  getattr_background message = Some bg ->
  (__aexit__ after_processed None message).1
  = EvBackground (tasks_id bg)
      :: match tasks_call bg with
         | Return _ => [EvAfterProcessed None]
         | Raise _ => []
         end
  ∧ (__aexit__ after_processed (Some e) message).1 = [EvAfterProcessed (Some e)]
  ∧ (__aexit__ after_processed (Some e) message).2 = after_processed (Some e).
Proof.
  intros Hbg. unfold __aexit__. rewrite Hbg.
  by destruct (tasks_call bg).
Qed.

End Exit.

Import Samples.

(** A scope that ends with an exception, for a message that carries
    background work: the work is not awaited. *)
Lemma background_skipped_on_exception :
  (__aexit__ base_after_processed (Some boom) (Some message_with_background)).1
  = [EvAfterProcessed (Some boom)]
  ∧ ¬ In (EvBackground 1)
        (__aexit__ base_after_processed (Some boom)
           (Some message_with_background)).1.
Proof.
  split; [reflexivity|]. simpl. intros [H|[]]. discriminate H.
Qed.

Lemma background_awaited_on_normal_exit_only_witness :
  (__aexit__ base_after_processed None (Some message_with_background)).1
  = [EvBackground 1; EvAfterProcessed None].
Proof.
  destruct (background_awaited_on_normal_exit_only base_after_processed
              (Some message_with_background)
              {| tasks_id := 1; tasks_call := Return tt |} boom) as (H & _);
    [reflexivity|].
  exact H.
Defined.

End MiddlewareFacts.

(** * The command line *)
Module CliFacts.
Import Cli.

Section Commands.
Variable LogLevels : Type.
Variable parse_cli_args : string -> list string -> string * AnyDict.
Variable get_log_level : LogLevels -> Z.
Variable import_from_string : string -> bool -> result (string * app_object).
Variable INSTALL_WATCHFILES : string.
Variable watchfiles_installed : bool.
Variable uvloop_usable : bool.
Variable watch_reloader_run : result unit.
Variable multiprocess_run : result unit.
Variable asgi_multiprocess_run : result unit.

Local Abbreviation run_command :=
  (run LogLevels parse_cli_args get_log_level import_from_string
     INSTALL_WATCHFILES watchfiles_installed uvloop_usable watch_reloader_run
     multiprocess_run asgi_multiprocess_run).
Local Abbreviation publish_command := (publish parse_cli_args import_from_string).

(** C5, as amended. With the reload flag and more than one worker, [run]
    starts nothing: neither the watch reloader, nor a multiprocess
    supervisor, nor the application. When the application string resolves,
    [run] raises the [SetupError] that refuses the combination and the
    process ends with status 1; when it does not resolve, the import, which
    comes first, raises and its error escapes instead. *)
Theorem reload_with_workers_rejected ctx_args app workers log_level log_config
    watch_extensions app_dir is_factory :
  (1 < workers)%Z ->
  let r := run_command ctx_args app workers log_level log_config true
             watch_extensions app_dir is_factory in
  count is_spawn r.1 = 0
  ∧ match import_from_string (parse_cli_args app ctx_args).1 is_factory with
    | Return _ =>
        r.2 = Failed (Exn SetupError
                        "You can't use reload option with multiprocessing")
        ∧ exit_status r.2 = 1%Z
    | Raise e => r.2 = Failed e
    end.
Proof.
  intros Hw r. subst r. unfold run.
  apply Z.ltb_lt in Hw. rewrite Hw. rewrite andb_false_r. simpl.
  unfold mbind, C_bind, bind, import_app, emit, lift, ret, throw. simpl.
  destruct (bool_decide (app_dir = EmptyString)); simpl;
    destruct (import_from_string _ is_factory) as [[module_path app_obj]|e];
    simpl; done.
Qed.


(** The keyword arguments [publish] passes to the broker. *)
Local Abbreviation extra_of ctx_args app message rpc :=
  (<["rpc" := VBool rpc]>
     (<["message" := VStr message]> (parse_cli_args app ctx_args).2)).

Lemma publish_resolved ctx_args app message rpc is_factory module_path app_obj :
  (parse_cli_args app ctx_args).1 ≠ EmptyString ->
  message ≠ EmptyString ->
  import_from_string (parse_cli_args app ctx_args).1 is_factory
  = Return (module_path, app_obj) ->
  publish_command ctx_args app message rpc is_factory
  = try_except
      (bind (fun _ =>
               match app_broker app_obj with
               | None =>
                   throw (Exn ValueError "Broker instance not found in the app.")
               | Some broker =>
                   bind (fun result => if rpc then echo (PVal result) else ret tt)
                     (publish_message broker (extra_of ctx_args app message rpc))
               end)
         (emit (EvImport (parse_cli_args app ctx_args).1 is_factory)))
      (fun e => bind (fun _ => sys_exit 1)
                  (echo (PStr ("Publish error: " +:+ exn_msg e)))).
Proof.
  intros Happ Hmsg Himp. unfold publish.
  rewrite (bool_decide_eq_false_2 _ Happ), (bool_decide_eq_false_2 _ Hmsg).
  unfold import_app. rewrite Himp.
  unfold mbind, C_bind, bind, emit, lift, ret. simpl.
  f_equal. destruct (app_broker app_obj) as [broker|]; [|done].
  destruct (publish_message broker _) as [t1 [reply|e|code]]; try done.
  by destruct rpc.
Qed.

Lemma publish_message_eq broker extra :
  publish_message broker extra
  = match enter_result broker with
    | Raise e =>
        ([EvBrokerEnter;
          EvEcho (PStr ("Error when broker was publishing: " +:+ exn_msg e))],
         Exit 1%Z)
    | Return _ =>
        match publish_result broker extra with
        | Return reply =>
            match exit_result broker None with
            | Return _ =>
                ([EvBrokerEnter; EvBrokerPublish extra; EvBrokerExit None],
                 Done reply)
            | Raise e =>
                ([EvBrokerEnter; EvBrokerPublish extra; EvBrokerExit None;
                  EvEcho (PStr ("Error when broker was publishing: "
                                +:+ exn_msg e))],
                 Exit 1%Z)
            end
        | Raise e =>
            ([EvBrokerEnter; EvBrokerPublish extra; EvBrokerExit (Some e);
              EvEcho (PStr ("Error when broker was publishing: "
                            +:+ exn_msg
                                  match exit_result broker (Some e) with
                                  | Return _ => e
                                  | Raise e' => e'
                                  end))],
             Exit 1%Z)
        end
    end.
Proof.
  unfold publish_message, publish_in_scope, try_except, mbind, C_bind, bind,
    echo, emit, lift, ret, throw, sys_exit.
  destruct (enter_result broker) as [[]|e]; simpl; [|done].
  destruct (publish_result broker extra) as [reply|e]; simpl.
  - by destruct (exit_result broker None) as [[]|e].
  - by destruct (exit_result broker (Some e)) as [[]|e'].
Qed.

(** C7. For a resolved application (the application string and the message
    are not empty and the import gives an object): without a broker the
    command prints the one line [Publish error: Broker instance not found in
    the app.] and exits with status 1; when the broker connects, publishes
    and closes without an exception, the command prints the reply, and
    nothing else, if RPC mode is on, prints nothing if it is off, and ends
    with status 0. *)
Theorem publish_outcomes ctx_args app message rpc is_factory module_path app_obj :
  let r := publish_command ctx_args app message rpc is_factory in
  (parse_cli_args app ctx_args).1 ≠ EmptyString ->
  message ≠ EmptyString ->
  import_from_string (parse_cli_args app ctx_args).1 is_factory
  = Return (module_path, app_obj) ->
  match app_broker app_obj with
  | None =>
      echoed r.1 = [PStr "Publish error: Broker instance not found in the app."]
      ∧ r.2 = Exit 1%Z
      ∧ exit_status r.2 = 1%Z
  | Some broker =>
      match enter_result broker,
            publish_result broker (extra_of ctx_args app message rpc),
            exit_result broker None with
      | Return _, Return reply, Return _ =>
          echoed r.1 = (if rpc then [PVal reply] else [])
          ∧ r.2 = Done tt
          ∧ exit_status r.2 = 0%Z
      | _, _, _ => True
      end
  end.
Proof.
  intros r Happ Hmsg Himp. subst r.
  rewrite (publish_resolved _ _ _ _ _ _ _ Happ Hmsg Himp).
  destruct (app_broker app_obj) as [broker|]; [|done].
  rewrite publish_message_eq.
  destruct (enter_result broker) as [[]|]; [|done].
  destruct (publish_result broker _) as [reply|]; [|done].
  destruct (exit_result broker None) as [[]|]; [|done].
  by destruct rpc.
Qed.

(** C8. For a resolved application with a broker, when connecting raises,
    or publishing (which in RPC mode includes waiting for the reply) raises:
    the command prints one line, the diagnostic of [publish_message], and
    leaves with status 1; the broker was entered once and asked to publish at
    most once (never after a failure), and a broker that was entered was
    left, once, through its [__aexit__]. *)
Theorem publish_failure_one_diagnostic ctx_args app message rpc is_factory
    module_path app_obj broker e :
  let r := publish_command ctx_args app message rpc is_factory in
  (parse_cli_args app ctx_args).1 ≠ EmptyString ->
  message ≠ EmptyString ->
  import_from_string (parse_cli_args app ctx_args).1 is_factory
  = Return (module_path, app_obj) ->
  app_broker app_obj = Some broker ->
  enter_result broker = Raise e
  ∨ publish_result broker (extra_of ctx_args app message rpc) = Raise e ->
  (∃ e', echoed r.1 = [PStr ("Error when broker was publishing: " +:+ exn_msg e')])
  ∧ r.2 = Exit 1%Z
  ∧ exit_status r.2 ≠ 0%Z
  ∧ count is_enter r.1 = 1
  ∧ count is_publish r.1
    = match enter_result broker with Return _ => 1 | Raise _ => 0 end
  ∧ count is_exit r.1
    = match enter_result broker with Return _ => 1 | Raise _ => 0 end
  ∧ (publish_message broker (extra_of ctx_args app message rpc)).2 = Exit 1%Z.
Proof.
  intros r Happ Hmsg Himp Hb Hfail. subst r.
  rewrite (publish_resolved _ _ _ _ _ _ _ Happ Hmsg Himp), Hb.
  rewrite publish_message_eq.
  destruct (enter_result broker) as [[]|e1]; simpl.
  - destruct Hfail as [Hf|Hf]; [done|]. rewrite Hf. simpl.
    repeat split; try done. eauto.
  - repeat split; try done. eauto.
Qed.

End Commands.

(** ** The commands on concrete runs *)

Import Samples.

(** [run nowhere:app --reload --workers 2], for an application string that
    does not resolve: the error of the import escapes, a [BadParameter], and
    the status is 2; the combination of the two options is never looked
    at. *)
Lemma reload_with_workers_unresolved_app :
  let r := run unit no_extra any_level More.failing_import "install watchfiles"
             true true (Return tt) (Return tt) (Return tt)
             [] "nowhere:app" 2 tt None true [] "." false in
  r.2 = Failed (Exn BadParameter "no such module")
  ∧ exit_status r.2 = 2%Z
  ∧ r.2 ≠ Failed (Exn SetupError
                    "You can't use reload option with multiprocessing")
  ∧ exit_status r.2 ≠ 1%Z.
Proof. repeat split; discriminate. Qed.

(** [run main:app --reload --workers 2] *)
Lemma reload_with_workers_rejected_witness :
  let r := run unit no_extra any_level (resolving None) "install watchfiles"
             true true (Return tt) (Return tt) (Return tt)
             [] "main:app" 2 tt None true [] "." false in
  count is_spawn r.1 = 0
  ∧ r.2 = Failed (Exn SetupError "You can't use reload option with multiprocessing")
  ∧ exit_status r.2 = 1%Z.
Proof.
  intros r.
  destruct (reload_with_workers_rejected unit no_extra any_level (resolving None)
              "install watchfiles" true true (Return tt) (Return tt) (Return tt)
              [] "main:app" 2 tt None [] "." false) as (H1 & H2 & H3);
    [reflexivity|].
  split; [exact H1|]. split; [exact H2|exact H3].
Defined.

(** [publish main:app hello --rpc] against a broker that replies, and
    [publish main:app hello] for an application without a broker. *)
Lemma publish_outcomes_witness :
  let r := publish no_extra (resolving (Some broker_replying))
             [] "main:app" "hello" true false in
  let r' := publish no_extra (resolving None) [] "main:app" "hello" false false in
  (echoed r.1 = [PVal (VStr "pong")] ∧ r.2 = Done tt ∧ exit_status r.2 = 0%Z)
  ∧ (echoed r'.1 = [PStr "Publish error: Broker instance not found in the app."]
     ∧ r'.2 = Exit 1%Z ∧ exit_status r'.2 = 1%Z).
Proof.
  intros r r'. split.
  - apply (publish_outcomes no_extra (resolving (Some broker_replying))
             [] "main:app" "hello" true false "main"
             (app_with (Some broker_replying)));
      [discriminate|discriminate|reflexivity].
  - apply (publish_outcomes no_extra (resolving None)
             [] "main:app" "hello" false false "main" (app_with None));
      [discriminate|discriminate|reflexivity].
Defined.

(** The same without [--rpc]: nothing is printed. *)
Example publish_without_rpc_prints_nothing :
  let r := publish no_extra (resolving (Some broker_replying))
             [] "main:app" "hello" false false in
  echoed r.1 = [] ∧ exit_status r.2 = 0%Z.
Proof. split; reflexivity. Qed.

(** An application without a broker. *)
Example publish_without_broker :
  let r := publish no_extra (resolving None) [] "main:app" "hello" false false in
  echoed r.1 = [PStr "Publish error: Broker instance not found in the app."]
  ∧ exit_status r.2 = 1%Z.
Proof. split; reflexivity. Qed.

(** [publish main:app hello] against a broker whose publish raises, and
    against a broker that cannot connect. *)
Lemma publish_failure_one_diagnostic_witness :
  let r := publish no_extra (resolving (Some broker_failing_publish))
             [] "main:app" "hello" false false in
  let r' := publish no_extra (resolving (Some broker_unreachable))
              [] "main:app" "hello" false false in
  (r.2 = Exit 1%Z ∧ count is_enter r.1 = 1 ∧ count is_publish r.1 = 1
   ∧ count is_exit r.1 = 1)
  ∧ (r'.2 = Exit 1%Z ∧ count is_enter r'.1 = 1 ∧ count is_publish r'.1 = 0
     ∧ count is_exit r'.1 = 0).
Proof.
  intros r r'. split.
  - destruct (publish_failure_one_diagnostic no_extra
                (resolving (Some broker_failing_publish))
                [] "main:app" "hello" false false "main"
                (app_with (Some broker_failing_publish)) broker_failing_publish
                boom)
      as (_ & H2 & _ & H4 & H5 & H6 & _);
      [discriminate|discriminate|reflexivity|reflexivity|right; reflexivity|].
    split; [exact H2|]. split; [exact H4|]. split; [exact H5|exact H6].
  - destruct (publish_failure_one_diagnostic no_extra
                (resolving (Some broker_unreachable))
                [] "main:app" "hello" false false "main"
                (app_with (Some broker_unreachable)) broker_unreachable boom)
      as (_ & H2 & _ & H4 & H5 & H6 & _);
      [discriminate|discriminate|reflexivity|reflexivity|left; reflexivity|].
    split; [exact H2|]. split; [exact H4|]. split; [exact H5|exact H6].
Defined.

(** A broker that cannot connect is not asked to publish, and is not left. *)
Example publish_unreachable_broker :
  (publish no_extra (resolving (Some broker_unreachable))
     [] "main:app" "hello" false false).1
  = [EvImport "main:app" false; EvBrokerEnter;
     EvEcho (PStr "Error when broker was publishing: boom")].
Proof. reflexivity. Qed.

End CliFacts.

(** * Further properties of the lifespan bridge *)
Module RouterExtra.
Import Router Spec More RouterFacts.

Section Bridge.
Context {Schema : Type}.
Variable get_app_schema : @StreamRouter Schema -> result Schema.
Implicit Types (self : @StreamRouter Schema) (app : FastAPI)
  (lc : host_lifespan) (env : broker_calls) (hs : list hook).

(** Splits a run of [startup] into the paths the generator can take. *)
Ltac paths :=
  rewrite ?startup_eq, ?capture_docs_eq in *;
  repeat (case_match; simplify_eq;
          rewrite ?exit_on_error_eq, ?before_yield_eq in * );
  unfold state_of, trace_of, result_of in *; simpl in *.

(** Counts the events of a trace written out as a list. *)
Ltac tally :=
  repeat first
    [ rewrite count_app
    | rewrite count_cons
    | rewrite count_nil
    | rewrite count_calls_other by done ];
  simpl.

Lemma shutdown_eq lc env app thrown self :
  shutdown lc env app thrown self
  = let r := result_of (after_yield env app thrown self) in
    (self,
     match thrown with
     | Some _ => []
     | None => calls EvOnShutdown (executed (_on_shutdown_hooks self) app)
     end ++ [EvBrokerStop; EvLifespanExit (raised r)],
     match lc_exit lc (raised r) with
     | Raise e' => Raise e'
     | Return suppress =>
         match r with
         | Raise e => if suppress then Return tt else Raise e
         | Return _ => Return tt
         end
     end).
Proof.
  unfold shutdown. rewrite after_yield_eq. unfold result_of. simpl.
  by rewrite <- app_assoc.
Qed.

Lemma startup_keeps lc env app self :
  let s1 := state_of (startup get_app_schema lc env app self) in
  _after_startup_hooks s1 = _after_startup_hooks self
  ∧ _on_shutdown_hooks s1 = _on_shutdown_hooks self
  ∧ broker s1 = broker self
  ∧ setup_state s1 = setup_state self
  ∧ docs_router s1 = docs_router self
  ∧ include_in_schema s1 = include_in_schema self.
Proof. simpl. paths; done. Qed.

Lemma startup_keeps_started lc env app self :
  _lifespan_started self = true ->
  _lifespan_started (state_of (startup get_app_schema lc env app self)) = true.
Proof. intros Hs. paths; done. Qed.

Lemma scope_state lc env app r self :
  state_of (lifespan_scope get_app_schema lc env app (host_block r) self)
  = state_of (startup get_app_schema lc env app self).
Proof.
  rewrite lifespan_scope_eq.
  destruct (startup get_app_schema lc env app self) as [[s1 t1] [c|e]]; [|done].
  unfold host_block, lift. by rewrite shutdown_eq.
Qed.

(** X1. With a host lifespan that lets exceptions through, what leaves the
    second half of the scope is: the exception of broker stop when stop
    raises, whatever the hooks or the host's block did; otherwise the
    exception the host's block raised; otherwise that of the first
    on-shutdown hook that raised; otherwise nothing. *)
Theorem stop_exception_replaces_others lc env app thrown self :
  (∀ x, lc_exit lc x = Return false) ->
  result_of (shutdown lc env app thrown self)
  = match stop_result env with
    | Raise e => Raise e
    | Return _ =>
        match thrown with
        | Some e => Raise e
        | None => first_raise (_on_shutdown_hooks self) app
        end
    end.
Proof.
  intros Hlc. rewrite shutdown_eq, after_yield_eq. unfold result_of. simpl.
  rewrite Hlc.
  destruct (stop_result env) as [[]|e]; [|done].
  destruct thrown as [e|]; [done|].
  by destruct (first_raise _ app) as [[]|e].
Qed.

(** X2. The on-shutdown hooks are called only in a scope that reached its
    [yield] and whose host block returned: there they are called in
    registration order up to the first that raises; when the host's block
    raises, or the startup fails, none is called. *)
Theorem shutdown_hooks_only_after_clean_block lc env app r self :
  let pass := startup get_app_schema lc env app self in
  List.filter is_on_shutdown
    (trace_of (lifespan_scope get_app_schema lc env app (host_block r) self))
  = match result_of pass, r with
    | Return _, Return _ =>
        calls EvOnShutdown (executed (_on_shutdown_hooks self) app)
    | _, _ => []
    end.
Proof.
  intros pass. subst pass. rewrite lifespan_scope_eq.
  assert (H0 : List.filter is_on_shutdown
                 (trace_of (startup get_app_schema lc env app self)) = []).
  { paths; simpl; rewrite ?List.filter_app; simpl;
      rewrite ?(filter_calls_other is_on_shutdown EvAfterStartup) by done;
      done. }
  destruct (startup_keeps lc env app self) as (_ & Hh & _).
  destruct (startup get_app_schema lc env app self) as [[s1 t1] [c|e]];
    unfold state_of, trace_of, result_of in *; simpl in *; [|done].
  unfold host_block, lift. rewrite shutdown_eq. simpl.
  rewrite !List.filter_app, H0. simpl.
  destruct r as [[]|e]; simpl; [|done].
  rewrite (filter_calls_same is_on_shutdown EvOnShutdown) by done.
  by rewrite app_nil_r, Hh.
Qed.

(** X3. With [setup_state] off the host's block is handed nothing, whatever
    the context the startup composed. *)
Theorem no_state_handed_without_setup_state lc env app body self :
  setup_state self = false ->
  lifespan_scope get_app_schema lc env app body self
  = lifespan_scope get_app_schema lc env app (fun _ => body None) self.
Proof.
  intros Hss. rewrite !lifespan_scope_eq.
  destruct (startup_keeps lc env app self) as (_ & _ & _ & Hs1 & _).
  destruct (startup get_app_schema lc env app self) as [[s1 t1] [c|e]];
    unfold state_of in *; simpl in *; [|done].
  unfold yielded. by rewrite Hs1, Hss.
Qed.

(** X5. The started flag is never cleared: once a scope has reached its
    [yield], the flag is still set after the scope is closed, and no later
    scope on that router invokes broker start. *)
Theorem started_flag_is_never_cleared lc env app r c lc2 env2 r2 self :
  result_of (startup get_app_schema lc env app self) = Return c ->
  let s1 := state_of (lifespan_scope get_app_schema lc env app (host_block r) self) in
  _lifespan_started s1 = true
  ∧ count is_start
      (trace_of (lifespan_scope get_app_schema lc2 env2 app (host_block r2) s1)) = 0.
Proof.
  intros Hr s1.
  assert (Hs1 : _lifespan_started s1 = true).
  { subst s1. rewrite scope_state.
    pose proof (startup_returns_started get_app_schema lc env app self) as H.
    by rewrite Hr in H. }
  split; [done|].
  rewrite lifespan_scope_eq.
  pose proof (startup_starts_never_when_started get_app_schema lc2 env2 app s1 Hs1)
    as H0.
  destruct (startup get_app_schema lc2 env2 app s1) as [[s2 t2] [c2|e2]];
    unfold trace_of in *; simpl in *; [|done].
  unfold host_block, lift. rewrite shutdown_eq. simpl.
  rewrite !count_app, H0. destruct (raised r2); by tally.
Qed.


(** ** Documentation *)

Variable dumps_jsonable : Schema -> string.
Variable to_yaml : Schema -> string.
Variable get_asyncapi_html : Schema -> display -> string.

(** X6. On a router with a documentation router, a pass whose schema
    generation succeeds stores the schema and the host's title, description,
    version, contact and license, whatever the host lifespan, the broker and
    the hooks do afterwards; from then on the three endpoints answer with
    the renderings of that schema. *)
Theorem docs_served_once_schema_built lc env app rt s d self :
  docs_router self = Some rt ->
  get_app_schema (set_metadata self app) = Return s ->
  let s1 := state_of (startup get_app_schema lc env app self) in
  schema s1 = Some s
  ∧ title s1 = app_title app
  ∧ description s1 = app_description app
  ∧ version s1 = app_version app
  ∧ contact s1 = app_contact app
  ∧ license s1 = app_license_info app
  ∧ download_app_json_schema dumps_jsonable s1
    = Return {| content := dumps_jsonable s;
                content_type := "application/octet-stream" |}
  ∧ download_app_yaml_schema to_yaml s1
    = Return {| content := to_yaml s;
                content_type := "application/octet-stream" |}
  ∧ serve_asyncapi_schema get_asyncapi_html s1 d
    = Return {| content := get_asyncapi_html s d; content_type := "text/html" |}.
Proof.
  intros Hrt Hs s1.
  assert (Hfields : schema s1 = Some s ∧ title s1 = app_title app
                    ∧ description s1 = app_description app
                    ∧ version s1 = app_version app
                    ∧ contact s1 = app_contact app
                    ∧ license s1 = app_license_info app).
  { subst s1. paths; done. }
  destruct Hfields as (Hsch & ? & ? & ? & ? & ?).
  repeat split; try done;
    unfold download_app_json_schema, download_app_yaml_schema,
      serve_asyncapi_schema, assert_schema; by rewrite Hsch.
Qed.

(** X7. A router built with [include_in_schema] off, or without a schema
    URL (none, or the empty string), has no documentation router; its
    startup generates no schema, keeps the empty title, and includes nothing
    into the application, so its schema stays unset. *)
Theorem no_docs_router_no_schema lc env app handle setup include schema_url :
  include = false ∨ nonempty schema_url = false ->
  let self := init (Schema := Schema) handle setup include schema_url in
  let pass := startup get_app_schema lc env app self in
  docs_router self = None
  ∧ schema (state_of pass) = None
  ∧ title (state_of pass) = EmptyString
  ∧ count is_include_router (trace_of pass) = 0.
Proof.
  intros Hoff self pass.
  assert (Hd : docs_router self = None).
  { subst self. unfold init, _asyncapi_router. simpl.
    destruct include; [|done]. destruct Hoff as [Hx|Hx]; [done|]. by rewrite Hx. }
  split; [done|]. subst pass.
  assert (Hsch : schema self = None) by done.
  assert (Ht : title self = EmptyString) by done.
  clearbody self. paths; try congruence; repeat split; try done; by tally.
Qed.

(** X8. When the schema generation raises, the pass ends there with that
    exception: the host lifespan is not entered and broker start is not
    invoked; the started flag and the stored schema are as before, while the
    title, description and version are already those of the host. *)
Theorem schema_failure_ends_pass_early lc env app rt e self :
  docs_router self = Some rt ->
  get_app_schema (set_metadata self app) = Raise e ->
  let pass := startup get_app_schema lc env app self in
  trace_of pass = [EvSetApplication]
  ∧ result_of pass = Raise e
  ∧ _lifespan_started (state_of pass) = _lifespan_started self
  ∧ schema (state_of pass) = schema self
  ∧ title (state_of pass) = app_title app
  ∧ description (state_of pass) = app_description app
  ∧ version (state_of pass) = app_version app.
Proof. intros Hrt He pass. subst pass. paths; done. Qed.

(** ** The host lifespan *)

Lemma startup_exits lc env app self :
  let pass := startup get_app_schema lc env app self in
  match result_of (capture_docs get_app_schema app self), lc_enter lc app with
  | Return _, Return _ =>
      match result_of pass with
      | Return _ => count is_lifespan_exit (trace_of pass) = 0
      | Raise _ => ∃ t' x, trace_of pass = t' ++ [EvLifespanExit x]
                           ∧ count is_lifespan_exit t' = 0
      end
  | _, _ =>
      count is_lifespan_exit (trace_of pass) = 0
      ∧ count is_start (trace_of pass) = 0
      ∧ ∃ e, result_of pass = Raise e
  end.
Proof.
  simpl. paths; repeat split; eauto; try (by tally).
  all: match goal with
       | |- ∃ t' x, ?a :: ?b :: ?c :: ?d :: ?l ++ [EvLifespanExit ?y] = _ ∧ _ =>
           exists (a :: b :: c :: d :: l), y
       | |- ∃ t' x, ?a :: ?b :: ?c :: ?l ++ [EvLifespanExit ?y] = _ ∧ _ =>
           exists (a :: b :: c :: l), y
       | |- ∃ t' x, [?a; ?b; ?c; ?d; EvLifespanExit ?y] = _ ∧ _ =>
           exists [a; b; c; d], y
       | |- ∃ t' x, [?a; ?b; ?c; EvLifespanExit ?y] = _ ∧ _ =>
           exists [a; b; c], y
       end; (split; [reflexivity|by tally]).
Qed.

(** X9. In a scope, the host lifespan is left exactly once when it was
    entered, after everything else, and not at all when the pass ended
    before entering it or when entering it raised; in the latter cases
    neither broker start nor broker stop is invoked. *)
Theorem host_lifespan_left_once_iff_entered lc env app r self :
  let t := trace_of (lifespan_scope get_app_schema lc env app (host_block r) self) in
  match result_of (capture_docs get_app_schema app self), lc_enter lc app with
  | Return _, Return _ =>
      count is_lifespan_exit t = 1
      ∧ ∃ t' x, t = t' ++ [EvLifespanExit x]
  | _, _ =>
      count is_lifespan_exit t = 0
      ∧ count is_start t = 0
      ∧ count is_stop t = 0
  end.
Proof.
  intros t. subst t. rewrite lifespan_scope_eq.
  pose proof (startup_exits lc env app self) as Hx. simpl in Hx.
  pose proof (startup_never_stops get_app_schema lc env app self) as Hstop.
  destruct (result_of (capture_docs get_app_schema app self)) as [[]|e0];
    [destruct (lc_enter lc app) as [mc|e0]|].
  - destruct (startup get_app_schema lc env app self) as [[s1 t1] [c|e]];
      unfold trace_of, result_of in *; simpl in *.
    + unfold host_block, lift. rewrite shutdown_eq. simpl.
      split.
      * rewrite !count_app, Hx. destruct (raised r); by tally.
      * match goal with
        | |- ∃ t' x, ?u ++ ?v ++ [?a; EvLifespanExit ?y] = _ =>
            exists (u ++ v ++ [a]), y; by rewrite <- !app_assoc
        end.
    + destruct Hx as (t' & x & -> & Hc). split; [|eauto].
      rewrite count_app, Hc. by tally.
  - destruct Hx as (H1 & H2 & e' & He').
    destruct (startup get_app_schema lc env app self) as [[s1 t1] [c|e]];
      unfold trace_of, result_of in *; simpl in *; [discriminate|done].
  - destruct Hx as (H1 & H2 & e' & He').
    destruct (startup get_app_schema lc env app self) as [[s1 t1] [c|e]];
      unfold trace_of, result_of in *; simpl in *; [discriminate|done].
Qed.

(** ** The composed context *)

Lemma initial_context_host self mc k :
  k ≠ "broker" -> initial_context self mc !! k = host_context mc !! k.
Proof.
  intros Hk. unfold initial_context, update, host_context.
  rewrite lookup_union_r; [done|]. by rewrite lookup_singleton_ne.
Qed.

Lemma merged_nothing hs app (context : AnyDict) :
  forallb (returns_nothing app) hs = true -> merged hs app context = Return context.
Proof.
  induction hs as [|h hs IH]; [done|]. simpl. unfold returns_nothing at 1.
  destruct (hook_call h app) as [r|e]; [|done]. simpl.
  intros [Hr Hall]%andb_prop. unfold merge_hook_context.
  apply negb_true_iff in Hr. rewrite Hr. by apply IH.
Qed.

(** X10. An entry of the host's context under a key other than ["broker"]
    that no after-startup hook returns is still there, with the host's
    value, in the context the startup ends with (and a key the host did not
    supply and no hook returns is absent). *)
Theorem host_entries_survive lc env app mc k self :
  result_of (capture_docs get_app_schema app self) = Return tt ->
  lc_enter lc app = Return mc ->
  _lifespan_started self = true ∨ start_result env = Return tt ->
  k ≠ "broker" ->
  forallb (silent_on k app) (_after_startup_hooks self) = true ->
  ∃ c, result_of (startup get_app_schema lc env app self) = Return c
       ∧ c !! k = host_context mc !! k.
Proof.
  intros Hdocs Henter Hstart Hk Hsil.
  destruct (merged_silent (_after_startup_hooks self) app k
              (initial_context self mc) Hsil) as (c & Hc & Hck).
  destruct (startup_result get_app_schema lc env app mc c self
              Hdocs Henter Hstart Hc) as [Hr _].
  exists c. split; [done|]. by rewrite Hck, initial_context_host.
Qed.

(** X11. When every after-startup hook returns [None] or an empty mapping,
    the context the startup ends with is exactly the host's context with the
    entry ["broker"] set to the router's broker. *)
Theorem hooks_returning_nothing_change_nothing lc env app mc self :
  result_of (capture_docs get_app_schema app self) = Return tt ->
  lc_enter lc app = Return mc ->
  _lifespan_started self = true ∨ start_result env = Return tt ->
  forallb (returns_nothing app) (_after_startup_hooks self) = true ->
  result_of (startup get_app_schema lc env app self)
  = Return (<["broker" := VBroker (broker self)]> (host_context mc)).
Proof.
  intros Hdocs Henter Hstart Hall.
  pose proof (merged_nothing _ app (initial_context self mc) Hall) as Hc.
  destruct (startup_result get_app_schema lc env app mc _ self
              Hdocs Henter Hstart Hc) as [Hr _].
  rewrite Hr. f_equal. unfold initial_context, update, host_context.
  by rewrite insert_union_singleton_l.
Qed.

End Bridge.

(** ** On concrete runs *)

Import Samples.

Lemma stop_exception_replaces_others_witness :
  result_of (shutdown default_lifespan broker_stop_failing app0 None
               with_raising_shutdown)
  = Raise (Exn UserError "stop failed").
Proof.
  rewrite (stop_exception_replaces_others default_lifespan broker_stop_failing
             app0 None with_raising_shutdown); [reflexivity|].
  intros x. reflexivity.
Defined.

Lemma no_state_handed_without_setup_state_witness :
  lifespan_scope schema_of default_lifespan broker_ok app0
    (fun y => lift (match y with Some _ => Raise boom | None => Return tt end))
    without_state
  = lifespan_scope schema_of default_lifespan broker_ok app0
      (fun _ => lift (Return tt)) without_state.
Proof.
  apply (no_state_handed_without_setup_state schema_of default_lifespan broker_ok
           app0
           (fun y => lift (match y with Some _ => Raise boom | None => Return tt end))
           without_state).
  reflexivity.
Defined.

Lemma started_flag_is_never_cleared_witness :
  let s1 := state_of (lifespan_scope schema_of default_lifespan broker_ok app0
                        (host_block (Return tt)) fresh) in
  _lifespan_started s1 = true
  ∧ count is_start
      (trace_of (lifespan_scope schema_of default_lifespan broker_ok app0
                   (host_block (Return tt)) s1)) = 0.
Proof.
  apply (started_flag_is_never_cleared schema_of default_lifespan broker_ok app0
           (Return tt) (<["broker" := VBroker 7]> ∅)
           default_lifespan broker_ok (Return tt) fresh).
  reflexivity.
Defined.

Lemma docs_served_once_schema_built_witness :
  schema (state_of (startup schema_of default_lifespan broker_down app0 fresh))
  = Some tt.
Proof.
  destruct (docs_served_once_schema_built schema_of
              (fun _ => "{}") (fun _ => "yaml") (fun _ _ => "html")
              default_lifespan broker_down app0
              {| html_path := "/asyncapi"; json_path := "/asyncapi.json";
                 yaml_path := "/asyncapi.yaml" |}
              tt
              {| sidebar := true; info := true; servers := true;
                 operations := true; messages := true; schemas := true;
                 errors := true; expandMessageExamples := true |}
              fresh) as (H & _); [reflexivity..|].
  exact H.
Defined.

Lemma no_docs_router_no_schema_witness :
  schema (state_of (startup schema_of default_lifespan broker_ok app0
                      (init 7 true true (Some EmptyString)))) = None.
Proof.
  destruct (no_docs_router_no_schema schema_of default_lifespan broker_ok app0
              7 true true (Some EmptyString)) as (_ & H & _);
    [right; reflexivity|].
  exact H.
Defined.

Lemma schema_failure_ends_pass_early_witness :
  trace_of (startup schema_failing default_lifespan broker_ok app0 fresh)
  = [EvSetApplication].
Proof.
  destruct (schema_failure_ends_pass_early schema_failing default_lifespan
              broker_ok app0
              {| html_path := "/asyncapi"; json_path := "/asyncapi.json";
                 yaml_path := "/asyncapi.yaml" |}
              boom fresh) as (H & _); [reflexivity..|].
  exact H.
Defined.

Lemma host_entries_survive_witness :
  ∃ c, result_of (startup schema_of host_with_db broker_ok app0 with_A_B)
       = Return c
       ∧ c !! "db" = Some (VStr "pool").
Proof.
  destruct (host_entries_survive schema_of host_with_db broker_ok app0
              (Some {["db" := VStr "pool"]}) "db" with_A_B)
    as (c & Hr & Hc);
    [reflexivity|reflexivity|right; reflexivity|discriminate|reflexivity|].
  exists c. split; [exact Hr|]. rewrite Hc. reflexivity.
Defined.

Lemma hooks_returning_nothing_change_nothing_witness :
  result_of (startup schema_of host_with_db broker_ok app0 quiet_hooks)
  = Return (<["broker" := VBroker 7]> {["db" := VStr "pool"]}).
Proof.
  rewrite (hooks_returning_nothing_change_nothing schema_of host_with_db
             broker_ok app0 (Some {["db" := VStr "pool"]}) quiet_hooks);
    [reflexivity|reflexivity|reflexivity|right; reflexivity|reflexivity].
Defined.

End RouterExtra.

(** * Further properties of the background middleware *)
Module MiddlewareExtra.
Import Middleware.

(** X12. [after_processed] is called last, with the exception the scope
    ended with, and its result is the result of [__aexit__]; the one
    exception is background work that raises: then that exception leaves
    [__aexit__], where an outer middleware can catch it, and
    [after_processed] is not called. *)
Theorem after_processed_decides_unless_background_raises
    (after_processed : option exn -> result (option bool)) exc message :
  let r := __aexit__ after_processed exc message in
  (last r.1 = Some (EvAfterProcessed exc) ∧ r.2 = after_processed exc)
  ∨ (∃ bg e,
       exc = None
       ∧ getattr_background message = Some bg
       ∧ tasks_call bg = Raise e
       ∧ r = ([EvBackground (tasks_id bg)], Raise e)).
Proof.
  simpl. unfold __aexit__.
  destruct exc as [x|]; [by left|].
  destruct (getattr_background message) as [bg|] eqn:Hbg; [|by left].
  destruct (tasks_call bg) as [[]|e] eqn:Hcall; [by left|].
  right. by exists bg, e.
Qed.

End MiddlewareExtra.

(** * Further properties of the command line *)
Module CliExtra.
Import Cli More CliFacts.

Lemma cli_count_app (p : event -> bool) (t1 t2 : list event) :
  count p (t1 ++ t2) = count p t1 + count p t2.
Proof. unfold count. by rewrite List.filter_app, length_app. Qed.

Lemma cli_count_cons (p : event -> bool) (e : event) (t : list event) :
  count p (e :: t) = (if p e then 1 else 0) + count p t.
Proof. unfold count. simpl. by destruct (p e). Qed.

Section Commands.
Variable LogLevels : Type.
Variable parse_cli_args : string -> list string -> string * AnyDict.
Variable get_log_level : LogLevels -> Z.
Variable import_from_string : string -> bool -> result (string * app_object).
Variable INSTALL_WATCHFILES : string.
Variable watchfiles_installed : bool.
Variable uvloop_usable : bool.
Variable watch_reloader_run : result unit.
Variable multiprocess_run : result unit.
Variable asgi_multiprocess_run : result unit.

Local Abbreviation extra_of ctx_args app message rpc :=
  (<["rpc" := VBool rpc]>
     (<["message" := VStr message]> (parse_cli_args app ctx_args).2)).

(** ** [publish] *)

(** The command, path by path. *)
Lemma publish_eq ctx_args app message rpc is_factory :
  let app' := (parse_cli_args app ctx_args).1 in
  publish parse_cli_args import_from_string ctx_args app message rpc is_factory
  = if bool_decide (app' = EmptyString) then
      ([EvEcho (PStr "Publish error: App parameter is required.")], Exit 1%Z)
    else if bool_decide (message = EmptyString) then
      ([EvEcho (PStr "Publish error: Message parameter is required.")], Exit 1%Z)
    else
      match import_from_string app' is_factory with
      | Raise e =>
          ([EvImport app' is_factory;
            EvEcho (PStr ("Publish error: " +:+ exn_msg e))], Exit 1%Z)
      | Return imported =>
          match app_broker imported.2 with
          | None =>
              ([EvImport app' is_factory;
                EvEcho (PStr "Publish error: Broker instance not found in the app.")],
               Exit 1%Z)
          | Some broker =>
              match publish_message broker (extra_of ctx_args app message rpc) with
              | (t, Done reply) =>
                  (EvImport app' is_factory :: t
                   ++ (if rpc then [EvEcho (PVal reply)] else []), Done tt)
              | (t, Failed e) =>
                  (EvImport app' is_factory :: t
                   ++ [EvEcho (PStr ("Publish error: " +:+ exn_msg e))], Exit 1%Z)
              | (t, Exit code) => (EvImport app' is_factory :: t, Exit code)
              end
          end
      end.
Proof.
  simpl. unfold publish.
  destruct (bool_decide ((parse_cli_args app ctx_args).1 = EmptyString)); [done|].
  destruct (bool_decide (message = EmptyString)); [done|].
  unfold import_app, mbind, C_bind, bind, emit, lift, ret, throw, try_except,
    echo, sys_exit. simpl.
  destruct (import_from_string _ is_factory) as [imported|e]; [|done].
  simpl. destruct (app_broker imported.2) as [broker|]; [|done].
  destruct (publish_message broker _) as [t [reply|e|code]]; simpl; try done.
  destruct rpc; simpl; [done|]. by rewrite app_nil_r.
Qed.

(** X13. [publish] never lets an exception escape: it returns, having
    printed nothing or, in RPC mode, the reply; or it leaves with status 1,
    having printed exactly one line. *)
Theorem publish_returns_or_exits_1 ctx_args app message rpc is_factory :
  let r := publish parse_cli_args import_from_string ctx_args app message rpc is_factory in
  (r.2 = Done tt
   ∧ (echoed r.1 = [] ∨ ∃ reply, rpc = true ∧ echoed r.1 = [PVal reply]))
  ∨ (r.2 = Exit 1%Z ∧ ∃ line, echoed r.1 = [PStr line]).
Proof.
  simpl. rewrite publish_eq. simpl.
  repeat case_match; simplify_eq; simpl; try (right; split; [done|]; by eauto).
  all: match goal with
       | H : publish_message _ _ = _ |- _ => rewrite publish_message_eq in H
       end;
    repeat case_match; simplify_eq; simpl; eauto 8.
Qed.


(** Splits a run of [publish] into its paths. *)
Ltac publish_paths :=
  rewrite publish_eq; simpl;
  repeat case_match; simplify_eq; simpl;
  try match goal with
      | H : publish_message _ _ = _ |- _ =>
          rewrite publish_message_eq in H; repeat case_match; simplify_eq; simpl
      end.

(** X14. Without an application string, or with an empty message, [publish]
    imports nothing and touches no broker: it prints the line that names the
    missing parameter (the application first) and leaves with status 1. *)
Theorem publish_refuses_empty_input ctx_args app message rpc is_factory :
  (parse_cli_args app ctx_args).1 = EmptyString ∨ message = EmptyString ->
  publish parse_cli_args import_from_string ctx_args app message rpc is_factory
  = ([EvEcho (PStr ("Publish error: "
                    +:+ (if bool_decide ((parse_cli_args app ctx_args).1 = EmptyString)
                         then "App parameter is required."
                         else "Message parameter is required.")))],
     Exit 1%Z).
Proof.
  intros Hempty. rewrite publish_eq. simpl.
  case_bool_decide as Happ; [done|].
  destruct Hempty as [Hx|Hx]; [done|]. by rewrite bool_decide_eq_true_2.
Qed.

(** X15. Whatever happens, [publish] enters the broker at most once, asks it
    to publish at most once and only after entering it, and leaves it through
    [__aexit__] exactly as often as it asked it to publish, that is, whenever
    entering succeeded. *)
Theorem publish_scopes_the_broker ctx_args app message rpc is_factory :
  let r := publish parse_cli_args import_from_string ctx_args app message rpc is_factory in
  count is_enter r.1 <= 1
  ∧ count is_publish r.1 <= count is_enter r.1
  ∧ count is_exit r.1 = count is_publish r.1.
Proof. simpl. publish_paths; unfold count; simpl; lia. Qed.

(** X16. The keyword arguments the broker is asked to publish with hold the
    message and the RPC switch of the command line under ["message"] and
    ["rpc"], also when extra options carry those names, and every other extra
    option unchanged. *)
Theorem publish_passes_message_and_rpc ctx_args app message rpc is_factory x :
  In (EvBrokerPublish x) (publish parse_cli_args import_from_string ctx_args app message rpc is_factory).1 ->
  x !! "message" = Some (VStr message)
  ∧ x !! "rpc" = Some (VBool rpc)
  ∧ ∀ k, k ≠ "message" -> k ≠ "rpc" ->
         x !! k = (parse_cli_args app ctx_args).2 !! k.
Proof.
  intros Hin.
  assert (Hx : x = extra_of ctx_args app message rpc).
  { revert Hin. publish_paths; intros Hin;
      repeat (destruct Hin as [Hin|Hin]; simplify_eq; try done);
      apply in_app_or in Hin; destruct Hin as [Hin|Hin];
      repeat (destruct Hin as [Hin|Hin]; simplify_eq; try done);
      destruct rpc; repeat (destruct Hin as [Hin|Hin]; simplify_eq; try done). }
  subst x. split; [|split].
  - rewrite lookup_insert_ne by done. by rewrite lookup_insert_eq.
  - by rewrite lookup_insert_eq.
  - intros k Hm Hr. by rewrite !lookup_insert_ne.
Qed.

(** X17. When the broker published and only leaving it raises, the command
    still fails: it prints the diagnostic with that exception, not the reply,
    and leaves with status 1. *)
Theorem publish_fails_when_close_raises ctx_args app message rpc is_factory
    module_path app_obj broker reply e :
  (parse_cli_args app ctx_args).1 ≠ EmptyString ->
  message ≠ EmptyString ->
  import_from_string (parse_cli_args app ctx_args).1 is_factory
  = Return (module_path, app_obj) ->
  app_broker app_obj = Some broker ->
  enter_result broker = Return tt ->
  publish_result broker (extra_of ctx_args app message rpc) = Return reply ->
  exit_result broker None = Raise e ->
  let r := publish parse_cli_args import_from_string ctx_args app message rpc is_factory in
  echoed r.1 = [PStr ("Error when broker was publishing: " +:+ exn_msg e)]
  ∧ r.2 = Exit 1%Z
  ∧ count is_publish r.1 = 1.
Proof.
  intros Happ Hmsg Himp Hb Henter Hpub Hexit. simpl. rewrite publish_eq. simpl.
  rewrite (bool_decide_eq_false_2 _ Happ), (bool_decide_eq_false_2 _ Hmsg), Himp.
  simpl. rewrite Hb, publish_message_eq, Henter, Hpub, Hexit. done.
Qed.

(** X18. When the application string does not resolve, [publish] prints the
    message of the import's exception after [Publish error: ] and leaves with
    status 1 without touching a broker. *)
Theorem publish_reports_import_error ctx_args app message rpc is_factory e :
  (parse_cli_args app ctx_args).1 ≠ EmptyString ->
  message ≠ EmptyString ->
  import_from_string (parse_cli_args app ctx_args).1 is_factory = Raise e ->
  publish parse_cli_args import_from_string ctx_args app message rpc is_factory
  = ([EvImport (parse_cli_args app ctx_args).1 is_factory;
      EvEcho (PStr ("Publish error: " +:+ exn_msg e))], Exit 1%Z).
Proof.
  intros Happ Hmsg Himp. rewrite publish_eq. simpl.
  by rewrite (bool_decide_eq_false_2 _ Happ), (bool_decide_eq_false_2 _ Hmsg), Himp.
Qed.

(** ** [run] *)

Lemma _run_imported_app_eq app_obj extra_options log_config log_level app_level :
  _run_imported_app uvloop_usable app_obj extra_options log_config log_level
    app_level
  = if is_Application (app_kind app_obj) then
      (preparation uvloop_usable log_config log_level
       ++ EvAnyioRun app_level extra_options
          :: match app_run app_obj app_level extra_options with
             | RunValidationError fields => [EvShowError fields]
             | _ => []
             end,
       match app_run app_obj app_level extra_options with
       | RunReturns => Done tt
       | RunValidationError _ => Exit 1%Z
       | RunRaises e => Failed e
       end)
    else
      ([], Failed (Exn BadParameter
                     ("Imported object " +:+ dquote +:+ app_repr app_obj
                      +:+ dquote +:+ " must be " +:+ dquote +:+ "Application"
                      +:+ dquote +:+ " type."))).
Proof.
  unfold _run_imported_app, preparation.
  destruct (is_Application (app_kind app_obj)); [|done]. simpl.
  unfold mbind, C_bind, bind, emit, ret, throw, sys_exit.
  destruct (0 <? log_level)%Z, log_config, uvloop_usable; simpl;
    by destruct (app_run app_obj app_level extra_options).
Qed.

(** The command, mode by mode. *)
Lemma run_eq ctx_args app workers log_level log_config reload watch_extensions
    app_dir is_factory :
  let app' := (parse_cli_args app ctx_args).1 in
  let extra := (parse_cli_args app ctx_args).2 in
  let level := get_log_level log_level in
  let before := arrival app' reload watch_extensions app_dir is_factory in
  run LogLevels parse_cli_args get_log_level import_from_string
    INSTALL_WATCHFILES watchfiles_installed uvloop_usable watch_reloader_run
    multiprocess_run asgi_multiprocess_run ctx_args app workers log_level log_config reload watch_extensions
    app_dir is_factory
  = match import_from_string app' is_factory with
    | Raise e => (before, Failed e)
    | Return imported =>
        let mode : C unit :=
          if reload && (1 <? workers)%Z then
            throw (Exn SetupError
                     "You can't use reload option with multiprocessing")
          else if reload then
            if watchfiles_installed then
              (EvWatchReloader
                 (if negb (bool_decide (app_dir = "."))
                  then [imported.1; app_dir] else [imported.1])
                 watch_extensions
               :: (lift watch_reloader_run).1,
               (lift watch_reloader_run).2)
            else
              (EvWarn INSTALL_WATCHFILES
               :: (_run import_from_string uvloop_usable app' extra is_factory
                     log_config level INFO).1,
               (_run import_from_string uvloop_usable app' extra is_factory
                  log_config level INFO).2)
          else if (1 <? workers)%Z then
            match app_kind imported.2 with
            | FastStream =>
                (EvMultiprocess workers DEBUG :: (lift multiprocess_run).1,
                 (lift multiprocess_run).2)
            | AsgiFastStream =>
                (EvASGIMultiprocess workers :: (lift asgi_multiprocess_run).1,
                 (lift asgi_multiprocess_run).2)
            | _ =>
                throw (Exn BadParameter
                         ("Unexpected app type, expected FastStream or AsgiFastStream, got: "
                          +:+ app_type_repr imported.2 +:+ "."))
            end
          else
            _run_imported_app uvloop_usable imported.2 extra log_config level INFO
        in
        (before ++ mode.1, mode.2)
    end.
Proof.
  simpl. unfold run, arrival, import_app, echo, mbind, C_bind, bind, emit, lift,
    ret, throw.
  destruct (negb (bool_decide (watch_extensions = [])) && negb reload);
    destruct (negb (bool_decide (app_dir = EmptyString))); simpl;
    (destruct (import_from_string _ is_factory) as [imported|e]; [|done]);
    simpl;
    destruct reload, (1 <? workers)%Z; simpl; try done;
    repeat case_match; simplify_eq; simpl; done.
Qed.

Lemma arrival_counts app' reload watch_extensions app_dir is_factory :
  let t := arrival app' reload watch_extensions app_dir is_factory in
  count is_supervisor t = 0 ∧ count is_app_run t = 0 ∧ count is_import t = 1
  ∧ count is_spawn t = 0.
Proof.
  simpl. unfold arrival.
  by destruct (negb (bool_decide (watch_extensions = [])) && negb reload),
    (negb (bool_decide (app_dir = EmptyString))).
Qed.

Lemma preparation_counts log_config log_level :
  let t := preparation uvloop_usable log_config log_level in
  count is_supervisor t = 0 ∧ count is_app_run t = 0 ∧ count is_import t = 0.
Proof.
  simpl. unfold preparation.
  by destruct (0 <? log_level)%Z, log_config, uvloop_usable.
Qed.

Lemma lift_silent {A} (r : result A) : (lift r).1 = [].
Proof. by destruct r. Qed.

(** Counts the events of a trace of [run]. *)
Ltac tally :=
  rewrite ?lift_silent;
  repeat first
    [ rewrite cli_count_app
    | rewrite cli_count_cons
    | rewrite (proj1 (arrival_counts _ _ _ _ _))
    | rewrite (proj1 (proj2 (arrival_counts _ _ _ _ _)))
    | rewrite (proj1 (proj2 (proj2 (arrival_counts _ _ _ _ _))))
    | rewrite (proj1 (preparation_counts _ _))
    | rewrite (proj1 (proj2 (preparation_counts _ _)))
    | rewrite (proj2 (proj2 (preparation_counts _ _))) ];
  simpl.


(** X20. Without the reload flag and with more than one worker, the
    application is not run in this process. For a [FastStream] object the
    multiprocess supervisor is started with that many workers (and the
    log level [DEBUG] for the application), for an [AsgiFastStream] object
    the ASGI one; for any other object nothing is started and the command
    fails with a [BadParameter] (status 2). *)
Theorem multi_worker_dispatch ctx_args app workers log_level log_config
    watch_extensions app_dir is_factory module_path app_obj :
  (1 < workers)%Z ->
  import_from_string (parse_cli_args app ctx_args).1 is_factory
  = Return (module_path, app_obj) ->
  let r := run LogLevels parse_cli_args get_log_level import_from_string
    INSTALL_WATCHFILES watchfiles_installed uvloop_usable watch_reloader_run
    multiprocess_run asgi_multiprocess_run ctx_args app workers log_level log_config false
             watch_extensions app_dir is_factory in
  count is_app_run r.1 = 0
  ∧ count is_import r.1 = 1
  ∧ match app_kind app_obj with
    | FastStream =>
        List.filter is_supervisor r.1 = [EvMultiprocess workers DEBUG]
        ∧ r.2 = (lift multiprocess_run).2
    | AsgiFastStream =>
        List.filter is_supervisor r.1 = [EvASGIMultiprocess workers]
        ∧ r.2 = (lift asgi_multiprocess_run).2
    | _ =>
        List.filter is_supervisor r.1 = []
        ∧ exit_status r.2 = 2%Z
    end.
Proof.
  intros Hw Himp. simpl. rewrite run_eq. simpl. rewrite Himp. simpl.
  apply Z.ltb_lt in Hw. rewrite Hw.
  assert (Hf : List.filter is_supervisor
                 (arrival (parse_cli_args app ctx_args).1 false watch_extensions
                    app_dir is_factory) = []).
  { unfold arrival.
    by destruct (negb (bool_decide (watch_extensions = [])) && negb false),
      (negb (bool_decide (app_dir = EmptyString))). }
  destruct (app_kind app_obj); simpl; rewrite ?List.filter_app, ?Hf; simpl;
    repeat split; try (by tally);
    try (by destruct multiprocess_run); try (by destruct asgi_multiprocess_run).
Qed.

(** X21. With the reload flag, at most one worker and no [watchfiles], [run]
    warns with the installation hint and runs the application itself, once,
    without a reloader: the application string is imported a second time for
    that run. *)
Theorem reload_falls_back_without_watchfiles ctx_args app workers log_level
    log_config watch_extensions app_dir is_factory module_path app_obj :
  watchfiles_installed = false ->
  (workers <= 1)%Z ->
  import_from_string (parse_cli_args app ctx_args).1 is_factory
  = Return (module_path, app_obj) ->
  let r := run LogLevels parse_cli_args get_log_level import_from_string
    INSTALL_WATCHFILES watchfiles_installed uvloop_usable watch_reloader_run
    multiprocess_run asgi_multiprocess_run ctx_args app workers log_level log_config true
             watch_extensions app_dir is_factory in
  count is_supervisor r.1 = 0
  ∧ In (EvWarn INSTALL_WATCHFILES) r.1
  ∧ count is_import r.1 = 2
  ∧ count is_app_run r.1 = (if is_Application (app_kind app_obj) then 1 else 0).
Proof.
  intros Hwf Hw Himp. simpl. rewrite run_eq. simpl. rewrite Himp, Hwf. simpl.
  apply Z.ltb_ge in Hw. rewrite Hw.
  unfold _run, import_app. rewrite Himp.
  unfold mbind, C_bind, bind, emit, lift. simpl.
  rewrite _run_imported_app_eq.
  destruct (is_Application (app_kind app_obj)); simpl;
    try destruct (app_run app_obj INFO _);
    (split; [by tally|]);
    (split; [apply in_or_app; right; by left|]);
    split; by tally.
Qed.

(** X22. With the reload flag, at most one worker and [watchfiles], [run]
    starts the watch reloader, once, on the directory of the module, and on
    the application directory as well unless that is ["."], with the extra
    extensions as given; the application is not run in this process, and the
    command ends as the reloader does. *)
Theorem reloader_watches_module_and_app_dir ctx_args app workers log_level
    log_config watch_extensions app_dir is_factory module_path app_obj :
  watchfiles_installed = true ->
  (workers <= 1)%Z ->
  import_from_string (parse_cli_args app ctx_args).1 is_factory
  = Return (module_path, app_obj) ->
  let r := run LogLevels parse_cli_args get_log_level import_from_string
    INSTALL_WATCHFILES watchfiles_installed uvloop_usable watch_reloader_run
    multiprocess_run asgi_multiprocess_run ctx_args app workers log_level log_config true
             watch_extensions app_dir is_factory in
  List.filter is_supervisor r.1
  = [EvWatchReloader
       (if bool_decide (app_dir = ".") then [module_path]
        else [module_path; app_dir])
       watch_extensions]
  ∧ count is_app_run r.1 = 0
  ∧ count is_import r.1 = 1
  ∧ r.2 = (lift watch_reloader_run).2.
Proof.
  intros Hwf Hw Himp. simpl. rewrite run_eq. simpl. rewrite Himp, Hwf. simpl.
  apply Z.ltb_ge in Hw. rewrite Hw.
  assert (Hf : List.filter is_supervisor
                 (arrival (parse_cli_args app ctx_args).1 true watch_extensions
                    app_dir is_factory) = []).
  { unfold arrival. rewrite andb_false_r.
    by destruct (negb (bool_decide (app_dir = EmptyString))). }
  rewrite List.filter_app, Hf.
  repeat split; try (by destruct watch_reloader_run; tally).
  simpl. destruct (bool_decide (app_dir = ".")); by destruct watch_reloader_run.
Qed.

(** X23. Extensions to watch given without the reload flag change nothing
    but the output: the command prints its hint first and then does what it
    does without them. *)
Theorem extensions_without_reload_only_print ctx_args app workers log_level
    log_config watch_extensions app_dir is_factory :
  watch_extensions ≠ [] ->
  let r := run LogLevels parse_cli_args get_log_level import_from_string
    INSTALL_WATCHFILES watchfiles_installed uvloop_usable watch_reloader_run
    multiprocess_run asgi_multiprocess_run ctx_args app workers log_level log_config false
             watch_extensions app_dir is_factory in
  let r0 := run LogLevels parse_cli_args get_log_level import_from_string
    INSTALL_WATCHFILES watchfiles_installed uvloop_usable watch_reloader_run
    multiprocess_run asgi_multiprocess_run ctx_args app workers log_level log_config false
              [] app_dir is_factory in
  r = (EvEcho (PStr extensions_hint) :: r0.1, r0.2).
Proof.
  intros Hext. simpl. rewrite !run_eq. simpl.
  unfold arrival. rewrite (bool_decide_eq_false_2 _ Hext). simpl.
  destruct (import_from_string _ is_factory) as [imported|e]; [|done].
  simpl. by destruct (1 <? workers)%Z.
Qed.

(** X24. A non-empty application directory is put on [sys.path] before the
    application string is imported, and nothing is imported before that. *)
Theorem sys_path_set_before_import ctx_args app workers log_level log_config
    reload watch_extensions app_dir is_factory :
  app_dir ≠ EmptyString ->
  let r := run LogLevels parse_cli_args get_log_level import_from_string
    INSTALL_WATCHFILES watchfiles_installed uvloop_usable watch_reloader_run
    multiprocess_run asgi_multiprocess_run ctx_args app workers log_level log_config reload
             watch_extensions app_dir is_factory in
  ∃ t1 t2,
    r.1 = t1 ++ EvSysPathInsert app_dir
               :: EvImport (parse_cli_args app ctx_args).1 is_factory :: t2
    ∧ count is_import t1 = 0.
Proof.
  intros Hdir. simpl. rewrite run_eq. simpl.
  unfold arrival. rewrite (bool_decide_eq_false_2 _ Hdir). simpl.
  destruct (import_from_string _ is_factory) as [imported|e]; simpl.
  - eexists _, _. rewrite <- app_assoc. simpl. split; [reflexivity|].
    by destruct (negb (bool_decide (watch_extensions = [])) && negb reload).
  - eexists _, []. split; [reflexivity|].
    by destruct (negb (bool_decide (watch_extensions = [])) && negb reload).
Qed.

End Commands.

(** ** On concrete runs *)

Import Samples.

Lemma publish_refuses_empty_input_witness :
  publish no_extra (resolving None) [] EmptyString "hello" false false
  = ([EvEcho (PStr "Publish error: App parameter is required.")], Exit 1%Z).
Proof.
  rewrite (publish_refuses_empty_input no_extra (resolving None)
             [] EmptyString "hello" false false);
    [reflexivity|left; reflexivity].
Defined.

Lemma publish_passes_message_and_rpc_witness :
  let x := <["rpc" := VBool false]>
             (<["message" := VStr "hello"]>
                (with_message_option "main:app" []).2) in
  x !! "message" = Some (VStr "hello") ∧ x !! "topic" = Some (VStr "in").
Proof.
  intros x.
  destruct (publish_passes_message_and_rpc with_message_option
              (resolving (Some broker_replying)) [] "main:app" "hello" false
              false x) as (Hm & _ & Hk).
  - right. right. left. reflexivity.
  - split; [exact Hm|]. rewrite Hk; [reflexivity|discriminate|discriminate].
Defined.

Lemma publish_fails_when_close_raises_witness :
  let r := publish no_extra (resolving (Some broker_failing_close))
             [] "main:app" "hello" true false in
  echoed r.1 = [PStr "Error when broker was publishing: boom"] ∧ r.2 = Exit 1%Z.
Proof.
  intros r.
  destruct (publish_fails_when_close_raises no_extra
              (resolving (Some broker_failing_close)) [] "main:app" "hello" true
              false "main" (app_with (Some broker_failing_close))
              broker_failing_close (VStr "pong") boom) as (H1 & H2 & _);
    [discriminate|discriminate|reflexivity..|].
  split; [exact H1|exact H2].
Defined.

Lemma publish_reports_import_error_witness :
  publish no_extra failing_import [] "main:app" "hello" false false
  = ([EvImport "main:app" false; EvEcho (PStr "Publish error: no such module")],
     Exit 1%Z).
Proof.
  apply (publish_reports_import_error no_extra failing_import [] "main:app"
           "hello" false false (Exn BadParameter "no such module"));
    [discriminate|discriminate|reflexivity].
Defined.


Lemma multi_worker_dispatch_witness :
  let r := run unit no_extra any_level (resolving_kind AsgiFastStream)
             "install watchfiles" true true (Return tt) (Return tt) (Return tt)
             [] "main:app" 3 tt None false [] "." false in
  let r' := run unit no_extra any_level (resolving_kind NotApplication)
              "install watchfiles" true true (Return tt) (Return tt) (Return tt)
              [] "main:app" 3 tt None false [] "." false in
  List.filter is_supervisor r.1 = [EvASGIMultiprocess 3]
  ∧ List.filter is_supervisor r'.1 = [] ∧ exit_status r'.2 = 2%Z.
Proof.
  intros r r'. split.
  - destruct (multi_worker_dispatch unit no_extra any_level
                (resolving_kind AsgiFastStream) "install watchfiles" true true
                (Return tt) (Return tt) (Return tt)
                [] "main:app" 3 tt None [] "." false "main"
                (app_of_kind AsgiFastStream)) as (_ & _ & H & _);
      [reflexivity..|].
    exact H.
  - destruct (multi_worker_dispatch unit no_extra any_level
                (resolving_kind NotApplication) "install watchfiles" true true
                (Return tt) (Return tt) (Return tt)
                [] "main:app" 3 tt None [] "." false "main"
                (app_of_kind NotApplication)) as (_ & _ & H);
      [reflexivity..|].
    exact H.
Defined.

Lemma reload_falls_back_without_watchfiles_witness :
  let r := run unit no_extra any_level (resolving None) "install watchfiles"
             false true (Return tt) (Return tt) (Return tt)
             [] "main:app" 1 tt None true [] "." false in
  count is_supervisor r.1 = 0 ∧ count is_import r.1 = 2
  ∧ count is_app_run r.1 = 1.
Proof.
  intros r.
  destruct (reload_falls_back_without_watchfiles unit no_extra any_level
              (resolving None) "install watchfiles" false true
              (Return tt) (Return tt) (Return tt)
              [] "main:app" 1 tt None [] "." false "main" (app_with None))
    as (H1 & _ & H3 & H4); [reflexivity..|].
  split; [exact H1|]. split; [exact H3|exact H4].
Defined.

Lemma reloader_watches_module_and_app_dir_witness :
  let r := run unit no_extra any_level (resolving None) "install watchfiles"
             true true (Return tt) (Return tt) (Return tt)
             [] "main:app" 1 tt None true [".toml"] "src" false in
  List.filter is_supervisor r.1 = [EvWatchReloader ["main"; "src"] [".toml"]]
  ∧ count is_app_run r.1 = 0.
Proof.
  intros r.
  destruct (reloader_watches_module_and_app_dir unit no_extra any_level
              (resolving None) "install watchfiles" true true
              (Return tt) (Return tt) (Return tt)
              [] "main:app" 1 tt None [".toml"] "src" false "main"
              (app_with None))
    as (H1 & H2 & _); [reflexivity..|].
  split; [exact H1|exact H2].
Defined.

Lemma extensions_without_reload_only_print_witness :
  let r := run unit no_extra any_level (resolving None) "install watchfiles"
             true true (Return tt) (Return tt) (Return tt)
             [] "main:app" 1 tt None false [".toml"] "." false in
  let r0 := run unit no_extra any_level (resolving None) "install watchfiles"
              true true (Return tt) (Return tt) (Return tt)
              [] "main:app" 1 tt None false [] "." false in
  r = (EvEcho (PStr extensions_hint) :: r0.1, r0.2).
Proof.
  apply (extensions_without_reload_only_print unit no_extra any_level
           (resolving None) "install watchfiles" true true
           (Return tt) (Return tt) (Return tt)
           [] "main:app" 1 tt None [".toml"] "." false).
  discriminate.
Defined.

Lemma sys_path_set_before_import_witness :
  ∃ t1 t2,
    (run unit no_extra any_level (resolving None) "install watchfiles"
       true true (Return tt) (Return tt) (Return tt)
       [] "main:app" 1 tt None false [] "src" false).1
    = t1 ++ EvSysPathInsert "src" :: EvImport "main:app" false :: t2
    ∧ count is_import t1 = 0.
Proof.
  apply (sys_path_set_before_import unit no_extra any_level (resolving None)
           "install watchfiles" true true (Return tt) (Return tt) (Return tt)
           [] "main:app" 1 tt None false [] "src" false).
  discriminate.
Defined.

End CliExtra.
